(** * The finance chatbot: client operations, dispatch and transcript download

    A shallow embedding of [finance_chatbot.py].  The program is glue code
    around three external services (yfinance, NewsAPI, Open Exchange Rates)
    and a chat model.  The embedding keeps the control flow of every client
    operation as the source has it ([try]/[except] blocks, early returns,
    f-strings) and makes the outside world explicit:

    - a [World] records what each external call answers (a value, or the
      exception it raises) during the call at hand;
    - a [Runtime] collects the operations of Python and its libraries that the
      program uses on numbers, strings and timestamps ([round], [str.upper],
      [strftime], ...);
    - an [outcome] is what a Python call does: return a value or raise.

    Python values that can be [None] (an argument missing from the model's
    tool call, an unset environment variable, a message without text) are
    [option string]; everything else is typed as the program uses it. *)

From stdpp Require Import gmap strings list pretty.
From Stdlib Require Import Ascii QArith Qabs Qround Lqa.

Close Scope Q_scope.

(** ** Outcomes of Python calls *)

(** An exception is represented by its message, the text [str(e)] yields. *)
Inductive outcome (A : Type) : Type :=
| Ok (a : A)
| Raise (e : string).
Arguments Ok {A} a.
Arguments Raise {A} e.

Definition and_then {A B : Type} (m : outcome A) (k : A → outcome B) : outcome B :=
  match m with
  | Ok a => k a
  | Raise e => Raise e
  end.

Notation "x <~ m ;; k" := (and_then m (λ x, k))
  (at level 100, m at next level, right associativity, only parsing).

(** [try: body except Exception as e: handler(e)] *)
Definition try_except {A : Type} (body : outcome A) (handler : string → outcome A) : outcome A :=
  match body with
  | Ok a => Ok a
  | Raise e => handler e
  end.

Definition returns {A : Type} (m : outcome A) : Prop := ∃ a, m = Ok a.

(** ** Strings *)

Abbreviation pyarg := (option string).

(** What an f-string prints for a value that is a [str] or [None]. *)
Definition py_str (v : pyarg) : string := default "None" v.

Definition nl : string := String (Ascii.ascii_of_nat 10) "".

(** [dict[key]]: a missing key raises [KeyError]. *)
Definition getitem {V : Type} (d : gmap string V) (key : string) : outcome V :=
  match d !! key with
  | Some v => Ok v
  | None => Raise key
  end.

(** [s.replace("Z", "+00:00")] *)
Fixpoint replace_Z (s : string) : string :=
  match s with
  | EmptyString => EmptyString
  | String c rest =>
      if Ascii.eqb c "Z"%char then "+00:00" +:+ replace_Z rest
      else String c (replace_Z rest)
  end.

(** [s[:n]] *)
Fixpoint str_take (n : nat) (s : string) : string :=
  match n, s with
  | S n', String c rest => String c (str_take n' rest)
  | _, _ => EmptyString
  end.

(** [s1] occurs in [s2], as Python's [s1 in s2]. *)
Fixpoint occurs_in (s1 s2 : string) : bool :=
  String.prefix s1 s2 ||
  match s2 with
  | EmptyString => false
  | String _ rest => occurs_in s1 rest
  end.

Definition contains (s1 s2 : string) : Prop := ∃ before after, s2 = before +:+ s1 +:+ after.
Definition starts_with (s1 s2 : string) : Prop := ∃ after, s2 = s1 +:+ after.
Definition ends_with (s1 s2 : string) : Prop := ∃ before, s2 = before +:+ s1.

(** ** The Python runtime the program relies on *)

Class Runtime := {
  (** numbers as the data sources deliver them (Python [float]) *)
  num : Type;
  (** [a / b]; raises [ZeroDivisionError] *)
  num_div : num → num → outcome num;
  (** [round(x, ndigits)] *)
  num_round : nat → num → num;
  (** [str(x)], what [f"{x}"] prints *)
  num_str : num → string;
  (** [f"{x:.2f}"] *)
  num_fmt2f : num → string;
  (** [int(x)]; raises on NaN and infinities *)
  num_int : num → outcome Z;
  (** [str.upper] *)
  upper : string → string;
  (** [datetime.utcfromtimestamp(t).strftime("%d.%m.%Y %H:%M")] *)
  utc_strftime : Z → outcome string;
  (** [datetime.fromisoformat(s).strftime("%d.%m.%Y %H:%M")] *)
  iso_strftime : string → outcome string;
}.

(** [x.upper()] on a value that may be [None] ([AttributeError]). *)
Definition py_upper `{Runtime} (v : pyarg) : outcome string :=
  match v with
  | Some s => Ok (upper s)
  | None => Raise "'NoneType' object has no attribute 'upper'"
  end.

(** ** Data delivered by the external services *)

Record date := { day : nat; month : nat; year : nat }.

Definition pad2 (n : nat) : string :=
  if decide (n < 10)%nat then "0" +:+ pretty n else pretty n.

(** [d.strftime("%d.%m.%Y")] *)
Definition strftime_dmy (d : date) : string :=
  pad2 (day d) +:+ "." +:+ pad2 (month d) +:+ "." +:+ pretty (year d).

(** One row of the price history. *)
Record quote `{Runtime} := {
  q_date : date;
  Close : num;
  High : num;
  Low : num;
  Volume : num;
}.

(** One element of NewsAPI's [articles] array; an absent key is [None]. *)
Record article := {
  publishedAt : option string;
  title : option string;
  url : option string;
  source : option (gmap string string);
}.

(** The JSON body of a response, with the keys the program reads. *)
Record body `{Runtime} := {
  articles : option (list article);
  rates : option (gmap string num);
  timestamp : option Z;
}.

Record response `{Runtime} := {
  status_code : Z;
  json : outcome body;
}.

(** What the outside world answers during one call. *)
Record World `{Runtime} := {
  NEWSAPI_KEY : pyarg;
  OPENEXCHANGE_API_KEY : pyarg;
  (** [yf.Ticker(t).info] *)
  yf_info : pyarg → outcome (gmap string string);
  (** [yf.utils.get_tickers(q)] *)
  yf_get_tickers : pyarg → outcome (list string);
  (** [yf.Ticker(t).history(period="7d")] *)
  yf_history : pyarg → outcome (list quote);
  (** [requests.get(url)] *)
  requests_get : string → outcome response;
  (** [datetime.now().strftime('%d.%m.%Y %H:%M')] *)
  now_strftime : string;
  (** seconds, read by the cache *)
  clock : nat;
}.

Definition SUPPORT_PHONE_NUMBER : string := "070-1234-5678".

(** ** The client operations *)

Section Operations.
Context `{Runtime}.

(** *** Ticker search

    [find_ticker] is memoised by [st.cache_data(ttl=600)]; the memo is not
    threaded through the operations below: the world gives the answers its
    lookups see, fresh or remembered. *)
Definition find_ticker (w : World) (query : pyarg) : pyarg :=
  let attempt : outcome pyarg :=
    info <~ yf_info w query ;;
    match (if bool_decide (info ≠ ∅) then info !! "symbol" else None) with
    | Some symbol => Ok (Some symbol)
    | None =>
        tickers <~ yf_get_tickers w query ;;
        match tickers with
        | first :: _ => Ok (Some first)
        | [] => Ok query
        end
    end in
  match attempt with
  | Ok ticker => ticker
  | Raise _ => query
  end.

(** *** Stock price *)

Definition price_data_missing : string :=
  "❌ Could not find any price data. Please check the ticker symbol or company name.".

Definition stock_data_error (e : string) : string :=
  "❌ Error while retrieving stock data: " +:+ e +:+ ". Please contact support: "
  +:+ SUPPORT_PHONE_NUMBER.

Definition yahoo_footer (last_date : string) : string :=
  "_Source: Yahoo Finance (yfinance), as of " +:+ last_date +:+ "_".

Definition price_payload (name ticker last_date : string) (price high low : num) (volume : Z)
    : string :=
  "**" +:+ name +:+ " (" +:+ ticker +:+ ") as of " +:+ last_date +:+ "**" +:+ nl
  +:+ "Closing price: **" +:+ num_str price +:+ " USD**" +:+ nl
  +:+ "High: " +:+ num_str high +:+ " USD, Low: " +:+ num_str low +:+ " USD, Volume: "
  +:+ pretty volume +:+ nl +:+ nl
  +:+ yahoo_footer last_date.

(** [stock.info.get("shortName", ticker)] *)
Definition short_name (w : World) (ticker : pyarg) : outcome string :=
  info <~ yf_info w ticker ;;
  Ok (default (py_str ticker) (info !! "shortName")).

Definition get_stock_price (w : World) (ticker_or_name : pyarg) : outcome string :=
  let ticker := find_ticker w ticker_or_name in
  try_except
    (hist <~ yf_history w ticker ;;
     match last hist with
     | None => Ok price_data_missing
     | Some last_quote =>
         let price := num_round 2 (Close last_quote) in
         let high := num_round 2 (High last_quote) in
         let low := num_round 2 (Low last_quote) in
         volume <~ num_int (Volume last_quote) ;;
         let last_date := strftime_dmy (q_date last_quote) in
         name <~ short_name w ticker ;;
         Ok (price_payload name (py_str ticker) last_date price high low volume)
     end)
    (λ e, Ok (stock_data_error e)).

(** *** Price history *)

Definition stock_data_missing : string := "❌ No stock data available for this company.".

(** [hist.tail(7)] *)
Definition tail7 {A : Type} (hist : list A) : list A := drop (length hist - 7) hist.

Definition history_line (q : quote) : string :=
  "* **" +:+ strftime_dmy (q_date q) +:+ ": " +:+ num_fmt2f (Close q) +:+ " USD**".

Definition history_header (name ticker : string) : string :=
  "Here is the price history for " +:+ name +:+ " (" +:+ ticker
  +:+ ") for the last seven days:" +:+ nl +:+ nl.

Definition get_stock_history (w : World) (ticker_or_name : pyarg) : outcome string :=
  let ticker := find_ticker w ticker_or_name in
  hist <~ yf_history w ticker ;;
  match hist with
  | [] => Ok stock_data_missing
  | _ =>
      let hist := tail7 hist in
      name <~ short_name w ticker ;;
      let md := history_header name (py_str ticker) in
      Ok (md +:+ String.concat nl (map history_line (reverse hist)))
  end.

(** *** News *)

Definition news_url (name key : pyarg) : string :=
  "https://newsapi.org/v2/everything?" +:+ "q=" +:+ py_str name +:+ "&" +:+ "language=en&"
  +:+ "sortBy=publishedAt&" +:+ "pageSize=5&" +:+ "apiKey=" +:+ py_str key.

Definition news_error (status : Z) : string :=
  "❌ Error while retrieving news (Status " +:+ pretty status +:+ ").".

Definition no_news (name : string) : string :=
  "ℹ️ No recent news found for **" +:+ name +:+ "**.".

Definition news_line (n : article) : string :=
  let published := default "" (publishedAt n) in
  let published_str :=
    match iso_strftime (replace_Z published) with
    | Ok s => s
    | Raise _ => str_take 10 published
    end in
  let title := default "No title" (title n) in
  let link := default "" (url n) in
  let source := default "" (default ∅ (source n) !! "name") in
  "- " +:+ published_str +:+ " (" +:+ source +:+ "): [" +:+ title +:+ "](" +:+ link +:+ ")" +:+ nl.

Definition news_footer (now : string) : string :=
  nl +:+ "_Source: newsapi.org, as of " +:+ now +:+ "_".

Definition get_financial_news (w : World) (ticker_or_name : pyarg) : outcome string :=
  let name : pyarg :=
    match yf_info w (find_ticker w ticker_or_name) with
    | Ok info =>
        match info !! "shortName" with
        | Some n => Some n
        | None => ticker_or_name
        end
    | Raise _ => ticker_or_name
    end in
  response <~ requests_get w (news_url name (NEWSAPI_KEY w)) ;;
  if bool_decide (status_code response ≠ 200%Z) then Ok (news_error (status_code response))
  else
    data <~ json response ;;
    let news := default [] (articles data) in
    match news with
    | [] => Ok (no_news (py_str name))
    | _ =>
        let result := fold_left (λ result n, result +:+ news_line n) news "" in
        Ok (result +:+ news_footer (now_strftime w))
    end.

(** *** Exchange rates *)

Definition fx_url (key : pyarg) : string :=
  "https://openexchangerates.org/api/latest.json?" +:+ "app_id=" +:+ py_str key.

Definition fx_error (status : Z) : string :=
  "❌ Error while retrieving exchange rate (Status " +:+ pretty status +:+ ").".

Definition pair_not_found : string := "❌ The currency pair could not be found.".

Definition fx_payload (from_code : string) (exchange_rate : num) (to_code timestamp : string)
    : string :=
  "1 " +:+ from_code +:+ " = **" +:+ num_str exchange_rate +:+ " " +:+ to_code +:+ "**" +:+ nl
  +:+ "_Source: Open Exchange Rates, as of " +:+ timestamp +:+ " UTC_".

(** The local [exchange_rate] of [get_exchange_rate]: its two table lookups,
    the division and the rounding. *)
Definition exchange_rate (table : gmap string num) (from_currency to_currency : pyarg)
    : outcome num :=
  from_code <~ py_upper from_currency ;;
  rate_from <~ getitem table from_code ;;
  to_code <~ py_upper to_currency ;;
  rate_to <~ getitem table to_code ;;
  ratio <~ num_div rate_to rate_from ;;
  Ok (num_round 4 ratio).

(** [data.get("rates", {})] *)
Definition rate_table (data : body) : gmap string num := default ∅ (rates data).

Definition get_exchange_rate (w : World) (from_currency to_currency : pyarg) : outcome string :=
  response <~ requests_get w (fx_url (OPENEXCHANGE_API_KEY w)) ;;
  if bool_decide (status_code response ≠ 200%Z) then Ok (fx_error (status_code response))
  else
    data <~ json response ;;
    let table := rate_table data in
    try_except
      (exchange_rate <~ exchange_rate table from_currency to_currency ;;
       timestamp <~ utc_strftime (default 0%Z (timestamp data)) ;;
       from_code <~ py_upper from_currency ;;
       to_code <~ py_upper to_currency ;;
       Ok (fx_payload from_code exchange_rate to_code timestamp))
      (λ _, Ok pair_not_found).

End Operations.

(** ** The memo decorator *)

(** Modelled from the spec: [st.cache_data(ttl=...)] is Streamlit's decorator;
    its code is not part of this repository.  The model follows section 5,
    "Per-query memoized results (ticker resolution, news, FX) are time-bounded
    caches keyed by input arguments; no invalidation beyond expiry", and the
    idempotence property of section 8, "calling the same query twice within
    the cache window returns identical output without a second external
    fetch".  The source hands the decorator nothing but the function, the
    same way for [find_ticker], [get_financial_news] and [get_exchange_rate],
    so one definition, generic in the type [K] of the arguments, serves the
    three.  A call that raises stores nothing. *)
Definition cache_data {K V : Type} `{Countable K} (ttl : nat) (f : K → outcome V)
    (now : nat) (store : gmap K (nat * V)) (args : K) : outcome V * gmap K (nat * V) :=
  let compute :=
    match f args with
    | Ok v => (Ok v, <[args := (now, v)]> store)
    | Raise e => (Raise e, store)
    end in
  match store !! args with
  | Some (stored_at, v) => if decide (now < stored_at + ttl)%nat then (Ok v, store) else compute
  | None => compute
  end.

(** The stores of the two decorated operations the dispatcher calls. *)
Record caches := {
  news_cache : gmap (option string) (nat * string);
  fx_cache : gmap (option string * option string) (nat * string);
}.

Definition no_caches : caches := {| news_cache := ∅; fx_cache := ∅ |}.

Section Decorated.
Context `{Runtime}.

(** [@st.cache_data(ttl=120) def get_financial_news(ticker_or_name)] *)
Definition get_financial_news_cached (w : World) (c : caches) (ticker_or_name : pyarg)
    : outcome string * caches :=
  let '(r, store) :=
    cache_data 120 (get_financial_news w) (clock w) (news_cache c) ticker_or_name in
  (r, {| news_cache := store; fx_cache := fx_cache c |}).

(** [@st.cache_data(ttl=300) def get_exchange_rate(from_currency, to_currency)] *)
Definition get_exchange_rate_cached (w : World) (c : caches) (from_currency to_currency : pyarg)
    : outcome string * caches :=
  let '(r, store) :=
    cache_data 300 (λ args, get_exchange_rate w args.1 args.2) (clock w) (fx_cache c)
      (from_currency, to_currency) in
  (r, {| news_cache := news_cache c; fx_cache := store |}).

End Decorated.

(** ** Session state, download and dispatch *)

Inductive role := System | User | Assistant | Function.

#[export] Instance role_eq_dec : EqDecision role.
Proof. solve_decision. Defined.

(** An element of [st.session_state.messages]. *)
Record message := {
  msg_role : role;
  msg_name : option string;
  content : option string;
}.

(** [download_chat_history]: the loop writes to a [StringIO]; the value is
    encoded as UTF-8, which strings here already are. *)
Definition write_message (output : string) (msg : message) : string :=
  match msg_role msg with
  | User => output +:+ "User: " +:+ py_str (content msg) +:+ nl
  | Assistant => output +:+ "Assistant: " +:+ py_str (content msg) +:+ nl
  | _ => output
  end.

Definition download_chat_history (messages : list message) : string :=
  fold_left write_message messages "".

Section Dispatch.
Context `{Runtime}.

(** The [if]/[elif] chain on [function_name]; [arguments.get(key)] is the
    lookup in the parsed argument object. *)
Definition dispatch (w : World) (c : caches) (function_name : string)
    (arguments : gmap string string) : outcome string * caches :=
  if decide (function_name = "get_stock_price") then
    (get_stock_price w (arguments !! "ticker"), c)
  else if decide (function_name = "get_stock_history") then
    (get_stock_history w (arguments !! "ticker"), c)
  else if decide (function_name = "get_financial_news") then
    get_financial_news_cached w c (arguments !! "ticker")
  else if decide (function_name = "get_exchange_rate") then
    get_exchange_rate_cached w c (arguments !! "from_currency") (arguments !! "to_currency")
  else
    (Ok "Unknown function call.", c).

Definition function_message (function_name function_response : string) : message :=
  {| msg_role := Function; msg_name := Some function_name;
     content := Some function_response |}.

(** Dispatch and the append of the tool result to the transcript. *)
Definition run_function_call (w : World) (c : caches) (messages : list message)
    (function_name : string) (arguments : gmap string string)
    : outcome (list message) * caches :=
  let '(r, c') := dispatch w c function_name arguments in
  (function_response <~ r ;;
   Ok (messages ++ [function_message function_name function_response]), c').

End Dispatch.

Definition registered_tools : list string :=
  ["get_stock_price"; "get_stock_history"; "get_financial_news"; "get_exchange_rate"].

(** ** A reference runtime

    One instance of [Runtime], on which the examples run.  Its numbers are
    exact rationals: [a / b] is the exact quotient and [round] is the
    round-half-to-even of the exact value.  It is not Python's [float]:
    there a decimal without a binary representation is held as the nearest
    double and a quotient is rounded to 53 bits, so the two differ on such
    values and next to a rounding tie.  Case mapping is that of ASCII, on
    which it agrees with [str.upper]; timestamps follow the proleptic
    Gregorian calendar.  The general theorems are stated for an arbitrary
    runtime, under the hypotheses they name. *)

Definition round_half_even (x : Q) : Z :=
  let lower := Qfloor x in
  match Qcompare (x - inject_Z lower) (1 # 2) with
  | Lt => lower
  | Gt => (lower + 1)%Z
  | Eq => if Z.even lower then lower else (lower + 1)%Z
  end.

Definition scale (ndigits : nat) : Q := inject_Z (10 ^ Z.of_nat ndigits).

Definition Qround (ndigits : nat) (x : Q) : Q :=
  Qred (inject_Z (round_half_even (x * scale ndigits)) / scale ndigits).

Definition Qtruediv (a b : Q) : outcome Q :=
  if Qeq_bool b 0 then Raise "float division by zero" else Ok (Qred (a / b)).

(** The decimal digits of [r / d] after the point, for [0 <= r < d]. *)
Fixpoint fraction_digits (fuel : nat) (r d : Z) : string :=
  match fuel with
  | O => ""
  | S fuel' =>
      if (r =? 0)%Z then ""
      else pretty (r * 10 / d)%Z +:+ fraction_digits fuel' ((r * 10) mod d)%Z d
  end.

Definition Qstr (x : Q) : string :=
  let n := Z.abs (Qnum x) in
  let d := Z.pos (Qden x) in
  let fraction := fraction_digits 17 (n mod d)%Z d in
  (if (Qnum x <? 0)%Z then "-" else "") +:+ pretty (n / d)%Z +:+ "."
  +:+ (if decide (fraction = "") then "0" else fraction).

Definition pad2z (n : Z) : string :=
  if (n <? 10)%Z then "0" +:+ pretty n else pretty n.

Definition Qfmt2f (x : Q) : string :=
  let cents := round_half_even (x * 100) in
  (if (cents <? 0)%Z then "-" else "") +:+ pretty (Z.abs cents / 100)%Z +:+ "."
  +:+ pad2z (Z.abs cents mod 100)%Z.

Definition Qint (x : Q) : outcome Z := Ok (Z.quot (Qnum x) (Z.pos (Qden x))).

Definition ascii_upper (c : ascii) : ascii :=
  let n := nat_of_ascii c in
  if (97 <=? n)%nat && (n <=? 122)%nat then ascii_of_nat (n - 32) else c.

Fixpoint ascii_str_upper (s : string) : string :=
  match s with
  | EmptyString => EmptyString
  | String c rest => String (ascii_upper c) (ascii_str_upper rest)
  end.

(** Year, month and day of the day number [z], counted from 1970-01-01. *)
Definition civil_from_days (z : Z) : Z * Z * Z :=
  let z := (z + 719468)%Z in
  let era := (z / 146097)%Z in
  let doe := (z - era * 146097)%Z in
  let yoe := ((doe - doe / 1460 + doe / 36524 - doe / 146096) / 365)%Z in
  let doy := (doe - (365 * yoe + yoe / 4 - yoe / 100))%Z in
  let mp := ((5 * doy + 2) / 153)%Z in
  let d := (doy - (153 * mp + 2) / 5 + 1)%Z in
  let m := if (mp <? 10)%Z then (mp + 3)%Z else (mp - 9)%Z in
  let y := (yoe + era * 400 + (if (m <=? 2)%Z then 1 else 0))%Z in
  (y, m, d).

Definition utc_strftime_ref (t : Z) : outcome string :=
  let '(y, m, d) := civil_from_days (t / 86400) in
  let seconds := (t mod 86400)%Z in
  if (1 <=? y)%Z && (y <=? 9999)%Z then
    Ok (pad2z d +:+ "." +:+ pad2z m +:+ "." +:+ pretty y +:+ " "
        +:+ pad2z (seconds / 3600) +:+ ":" +:+ pad2z (seconds mod 3600 / 60))
  else Raise "year is out of range".

Definition is_digit (c : ascii) : bool :=
  let n := nat_of_ascii c in (48 <=? n)%nat && (n <=? 57)%nat.

Fixpoint all_digits (s : string) : bool :=
  match s with
  | EmptyString => true
  | String c rest => is_digit c && all_digits rest
  end.

(** [YYYY-MM-DD], alone or followed by a separator and [HH:MM]. *)
Definition iso_strftime_ref (s : string) : outcome string :=
  let y := String.substring 0 4 s in
  let m := String.substring 5 2 s in
  let d := String.substring 8 2 s in
  let date_ok :=
    all_digits (y +:+ m +:+ d) && bool_decide (String.length (y +:+ m +:+ d) = 8%nat)
    && bool_decide (String.substring 4 1 s = "-") && bool_decide (String.substring 7 1 s = "-") in
  let hh := String.substring 11 2 s in
  let mm := String.substring 14 2 s in
  let time_ok :=
    all_digits (hh +:+ mm) && bool_decide (String.length (hh +:+ mm) = 4%nat)
    && bool_decide (String.substring 13 1 s = ":") in
  if date_ok && bool_decide (String.length s = 10%nat) then
    Ok (d +:+ "." +:+ m +:+ "." +:+ y +:+ " 00:00")
  else if date_ok && time_ok then
    Ok (d +:+ "." +:+ m +:+ "." +:+ y +:+ " " +:+ hh +:+ ":" +:+ mm)
  else Raise ("Invalid isoformat string: " +:+ s).

#[export] Instance exact_runtime : Runtime := {|
  num := Q;
  num_div := Qtruediv;
  num_round := Qround;
  num_str := Qstr;
  num_fmt2f := Qfmt2f;
  num_int := Qint;
  upper := ascii_str_upper;
  utc_strftime := utc_strftime_ref;
  iso_strftime := iso_strftime_ref;
|}.

(** *** Sample worlds *)

Definition quote_of (d : date) (close high low volume : Q) : quote :=
  {| q_date := d; Close := close; High := high; Low := low; Volume := volume |}.

Definition aapl_week : list quote :=
  [ quote_of {| day := 27; month := 10; year := 2025 |}
      268.81%Q 269.12%Q 264.65%Q 44888200%Q;
    quote_of {| day := 28; month := 10; year := 2025 |}
      269%Q 269.89%Q 268.15%Q 41534800%Q;
    quote_of {| day := 29; month := 10; year := 2025 |}
      269.69975%Q 271.41%Q 267.11%Q 51086700%Q ].

Definition usd_table : gmap string Q :=
  list_to_map [("USD", 1%Q); ("EUR", 0.8%Q); ("JPY", 150%Q); ("BTC", 0.00001%Q)].

Definition fx_body : body :=
  {| articles := None; rates := Some usd_table; timestamp := Some 1761732000%Z |}.

Definition sample_articles : list article :=
  [ {| publishedAt := Some "2025-10-29T14:05:00Z"; title := Some "Apple reports earnings";
       url := Some "https://example.org/a"; source := Some {["name" := "Example Wire"]} |};
    {| publishedAt := Some "yesterday"; title := None; url := None; source := None |} ].

(** All services answer. *)
Definition w_online : World := {|
  NEWSAPI_KEY := Some "k1";
  OPENEXCHANGE_API_KEY := Some "k2";
  yf_info := λ t,
    if decide (t = Some "AAPL") then Ok {["symbol" := "AAPL"; "shortName" := "Apple Inc."]}
    else Ok ∅;
  yf_get_tickers := λ q, if decide (q = Some "Apple") then Ok ["AAPL"] else Ok [];
  yf_history := λ t, if decide (t = Some "AAPL") then Ok aapl_week else Ok [];
  requests_get := λ u,
    if decide (u = fx_url (Some "k2")) then Ok {| status_code := 200; json := Ok fx_body |}
    else Ok {| status_code := 200;
               json := Ok {| articles := Some sample_articles; rates := None;
                             timestamp := None |} |};
  now_strftime := "29.10.2025 15:00";
  clock := 1000;
|}.

(** The price series is there, the company metadata is not. *)
Definition w_no_info : World := {|
  NEWSAPI_KEY := Some "k1";
  OPENEXCHANGE_API_KEY := Some "k2";
  yf_info := λ _, Raise "HTTP Error 404";
  yf_get_tickers := λ _, Raise "module 'yfinance.utils' has no attribute 'get_tickers'";
  yf_history := λ t, if decide (t = Some "AAPL") then Ok aapl_week else Ok [];
  requests_get := requests_get w_online;
  now_strftime := "29.10.2025 15:00";
  clock := 1000;
|}.

(** No network. *)
Definition w_offline : World := {|
  NEWSAPI_KEY := Some "k1";
  OPENEXCHANGE_API_KEY := Some "k2";
  yf_info := λ _, Raise "Connection refused";
  yf_get_tickers := λ _, Raise "Connection refused";
  yf_history := λ _, Raise "Connection refused";
  requests_get := λ _, Raise "Connection refused";
  now_strftime := "29.10.2025 15:00";
  clock := 1000;
|}.

(** The world of [w_online], ten seconds later. *)
Definition w_later : World := {|
  NEWSAPI_KEY := NEWSAPI_KEY w_online;
  OPENEXCHANGE_API_KEY := OPENEXCHANGE_API_KEY w_online;
  yf_info := yf_info w_online;
  yf_get_tickers := yf_get_tickers w_online;
  yf_history := yf_history w_online;
  requests_get := requests_get w_online;
  now_strftime := "29.10.2025 15:00";
  clock := 1010;
|}.

(** ** Failure marking

    Failure messages open with the glyph that the chat layer tests for with
    [function_response.startswith]. *)

Definition failure_marker : string := "❌".

Definition failure_marked (s : string) : bool := String.prefix failure_marker s.

(** ** Shapes of the returned strings

    What the claims about the returned strings talk about: the failure
    messages and the payloads of each operation, by their format. *)

(** Every string a client operation returns is either one of its failure
    messages, which open with the marker, or one of its payloads, which do
    not. *)
Definition classified (is_failure is_payload : string → Prop) (s : string) : Prop :=
  (failure_marked s = true ∧ is_failure s) ∨ (failure_marked s = false ∧ is_payload s).

(** [P] holds of the string [m] returns, if it returns one. *)
Definition every_result (P : string → Prop) (m : outcome string) : Prop :=
  match m with
  | Ok s => P s
  | Raise _ => True
  end.

Section Shapes.
Context `{Runtime}.

Definition is_price_failure (s : string) : Prop :=
  s = price_data_missing ∨ ∃ e, s = stock_data_error e.

Definition is_price_payload (s : string) : Prop :=
  ∃ name ticker last_date price high low volume,
    s = price_payload name ticker last_date price high low volume.

Definition is_history_failure (s : string) : Prop := s = stock_data_missing.

Definition is_history_payload (s : string) : Prop :=
  ∃ name ticker (rows : list quote),
    rows ≠ [] ∧ (length rows ≤ 7)%nat
    ∧ s = history_header name ticker +:+ String.concat nl (map history_line rows).

Definition is_news_failure (s : string) : Prop := ∃ status, s = news_error status.

(** The list of articles, or the notice that there is none. *)
Definition is_news_payload (s : string) : Prop :=
  (∃ name, s = no_news name)
  ∨ ∃ first rest now,
      s = foldr (λ n r, news_line n +:+ r) "" (first :: rest) +:+ news_footer now.

Definition is_fx_failure (s : string) : Prop :=
  s = pair_not_found ∨ ∃ status, s = fx_error status.

Definition is_fx_payload (s : string) : Prop :=
  ∃ from_code exchange_rate to_code timestamp,
    s = fx_payload from_code exchange_rate to_code timestamp.

End Shapes.

(** ** The transcript, line by line *)

(** The download as the claim words it: one line per user message and one
    per assistant message, in transcript order. *)
Definition in_download (msg : message) : bool :=
  match msg_role msg with
  | User | Assistant => true
  | System | Function => false
  end.

Definition transcript_line (msg : message) : string :=
  match msg_role msg with
  | User => "User: " +:+ py_str (content msg) +:+ nl
  | Assistant => "Assistant: " +:+ py_str (content msg) +:+ nl
  | System | Function => ""
  end.

Definition transcript_lines (messages : list message) : list string :=
  map transcript_line (List.filter in_download messages).

(** ** The script around the operations

    Streamlit runs the script top to bottom on every interaction.  One run
    reads the session state and the text input, draws widgets and, on a
    non-empty input, plays one turn with the chat model.  The [Host] records
    what the services of the script (the chat model, the JSON parser, the
    plotting library) answer during the run; the widgets a run draws are
    listed in the order of the calls. *)

(** *** The tool declarations handed to the model *)

Record parameter := {
  p_name : string;
  p_type : string;
  p_description : string;
}.

Record tool := {
  t_name : string;
  t_description : string;
  t_properties : list parameter;
  t_required : list string;
}.

Definition functions : list tool :=
  [ {| t_name := "get_stock_price";
       t_description :=
         "Returns the current stock price for a given ticker symbol or company name.";
       t_properties :=
         [ {| p_name := "ticker"; p_type := "string";
              p_description := "The ticker symbol or company name, e.g., AAPL or Apple." |} ];
       t_required := ["ticker"] |};
    {| t_name := "get_stock_history";
       t_description :=
         "Shows the stock price history (closing prices for the last 7 days) for a given ticker symbol or company.";
       t_properties :=
         [ {| p_name := "ticker"; p_type := "string";
              p_description := "The ticker symbol or company name, e.g., TSLA or Tesla." |} ];
       t_required := ["ticker"] |};
    {| t_name := "get_financial_news";
       t_description := "Returns the latest news for a given company or ticker.";
       t_properties :=
         [ {| p_name := "ticker"; p_type := "string";
              p_description := "The ticker symbol or company name, e.g., AAPL or Apple." |} ];
       t_required := ["ticker"] |};
    {| t_name := "get_exchange_rate";
       t_description := "Returns the current exchange rate between two currencies.";
       t_properties :=
         [ {| p_name := "from_currency"; p_type := "string";
              p_description := "Base currency, e.g., EUR" |};
           {| p_name := "to_currency"; p_type := "string";
              p_description := "Target currency, e.g., USD" |} ];
       t_required := ["from_currency"; "to_currency"] |} ].

(** The parameters declared for a tool name; none for an undeclared name. *)
Definition declared_parameters (function_name : string) : list string :=
  match List.find (λ t, bool_decide (t_name t = function_name)) functions with
  | Some t => map p_name (t_properties t)
  | None => []
  end.

(** *** Session state *)

Definition system_prompt : string :=
  "You are a helpful financial assistant. "
  +:+ "Only answer questions about stocks, markets, financial data, financial news, and exchange rates. "
  +:+ "For all other topics, politely explain that you can only answer financial questions. "
  +:+ "If users ask about current stock prices, price histories, or market data, use get_stock_price or get_stock_history. "
  +:+ "For company news, use get_financial_news. "
  +:+ "For currency and exchange rates, use get_exchange_rate. "
  +:+ "For all other topics, DO NOT answer, but inform users that you are only responsible for finance and market inquiries. "
  +:+ "If data is missing, kindly refer users to the support hotline 070-1234-5678.".

Definition system_message : message :=
  {| msg_role := System; msg_name := None; content := Some system_prompt |}.

(** [st.session_state.messages] after the block that creates it when absent. *)
Definition session_messages (stored : option (list message)) : list message :=
  match stored with
  | Some messages => messages
  | None => [system_message]
  end.

Definition user_message (user_input : string) : message :=
  {| msg_role := User; msg_name := None; content := Some user_input |}.

Definition assistant_message (final_message : option string) : message :=
  {| msg_role := Assistant; msg_name := None; content := final_message |}.

(** *** Services and widgets *)

Record function_call := {
  fc_name : string;
  fc_arguments : string;
}.

(** [response.choices[0].message] *)
Record chat_message := {
  cm_content : option string;
  cm_function_call : option function_call;
}.

Section Script.
Context `{Runtime}.

Record Host := {
  (** [client.chat.completions.create(model=model, messages=..., functions=functions,
      function_call="auto").choices[0].message] *)
  complete_with_functions : list message → list tool → outcome chat_message;
  (** [client.chat.completions.create(model=model, messages=...)
      .choices[0].message.content] *)
  complete : list message → outcome (option string);
  (** [json.loads] on the arguments of a function call *)
  json_loads : string → outcome (gmap string string);
  (** [plt.subplots()], the plot of the closes with its title, [ax.set_ylabel]
      and [st.pyplot(fig)] *)
  draw_chart : string → list quote → outcome unit;
  (** [str.lower] *)
  lower : string → string;
}.

Inductive widget :=
| Title (body : string)
| Write (body : string)
| Markdown (body : string) (unsafe_allow_html : bool)
| TextInput (label : string)
| DownloadButton (label data file_name : string)
| Warning (body : string)
| Error (body : string)
| Success (body : option string)
| Pyplot (title : string) (closes : list (date * num)) (ylabel : string).

(** *** The chart *)

Definition chart_title (ticker : pyarg) : string :=
  py_str ticker +:+ " – Closing Price (last 7 days)".

Definition plot_stock_history (host : Host) (w : World) (ticker_or_name : pyarg) : list widget :=
  let ticker := find_ticker w ticker_or_name in
  let attempt : outcome (list widget) :=
    hist <~ yf_history w ticker ;;
    match hist with
    | [] => Ok [Warning "No price data available."]
    | _ =>
        _ <~ draw_chart host (chart_title ticker) hist ;;
        Ok [Pyplot (chart_title ticker) (map (λ q, (q_date q, Close q)) hist) "Price in USD"]
    end in
  match attempt with
  | Ok widgets => widgets
  | Raise _ => [Error "Error while creating the chart."]
  end.

(** *** Download button and chat display *)

Definition header : list widget :=
  [ Title "📈 Stock and Finance Chatbot";
    Write ("Ask questions about stock prices, price histories, financial news, or exchange rates. "
           +:+ "For support: **070-1234-5678**");
    Markdown "**Example queries:**" false;
    Markdown (nl +:+ "- What is the current price of Apple stock?" +:+ nl
              +:+ "- Show me the price history for Tesla." +:+ nl
              +:+ "- What’s new with SAP?" +:+ nl
              +:+ "- What is the exchange rate from EUR to USD?" +:+ nl) false;
    TextInput "🗨️ Enter your question here:" ].

Definition download_button (messages : list message) : list widget :=
  if decide (2 < length messages)%nat then
    [ DownloadButton "💾 Download chat history" (download_chat_history messages)
        "financechat_history.txt" ]
  else [].

Definition display_message (message : message) : list widget :=
  match msg_role message with
  | User =>
      [ Markdown ("<div style='background-color:#eef3fc;padding:8px;border-radius:8px;color:#222222'><b>🧑 You:</b> "
                  +:+ py_str (content message) +:+ "</div>") true ]
  | Assistant =>
      [ Markdown ("<div style='background-color:#e8faee;padding:8px;border-radius:8px;color:#183b1e'><b>🤖 Assistant:</b> "
                  +:+ py_str (content message) +:+ "</div>") true ]
  | _ => []
  end.

Definition display_history (messages : list message) : list widget :=
  fold_left (λ shown message, shown ++ display_message message) messages [].

(** *** One turn *)

(** What a run leaves behind: the transcript and the caches as mutated, the
    widgets drawn, and the exception that stopped the script, if any. *)
Record run := {
  r_messages : list message;
  r_caches : caches;
  r_widgets : list widget;
  r_exception : option string;
}.

(** The widgets drawn after the second answer, by the tool that ran. *)
Definition tool_widgets (host : Host) (w : World)
    (function_name function_response : string) (arguments : gmap string string)
    : list widget :=
  if decide (function_name = "get_stock_history") then
    if negb (failure_marked function_response) then
      plot_stock_history host w (arguments !! "ticker")
    else [Warning function_response]
  else if decide (function_name = "get_stock_price") then []
  else if decide (function_name = "get_financial_news") then
    if occurs_in "Error" function_response
       || occurs_in "no recent news" (lower host function_response)
    then [Warning function_response] else []
  else if decide (function_name = "get_exchange_rate") then
    if occurs_in "Error" function_response || occurs_in "not found" function_response
    then [Error function_response] else []
  else [].

(** The body of [if user_input:]; the spinner shown meanwhile is left out.
    [w] answers the calls of the tool; [w_chart] answers the fetches of the
    widget step, which are made anew after the second answer of the model. *)
Definition chat_turn (host : Host) (w w_chart : World) (c : caches)
    (messages : list message) (user_input : string) : run :=
  let messages := messages ++ [user_message user_input] in
  match complete_with_functions host messages functions with
  | Raise e =>
      {| r_messages := messages; r_caches := c; r_widgets := []; r_exception := Some e |}
  | Ok response_message =>
      match cm_function_call response_message with
      | Some call =>
          let function_name := fc_name call in
          match json_loads host (fc_arguments call) with
          | Raise e =>
              {| r_messages := messages; r_caches := c; r_widgets := [];
                 r_exception := Some e |}
          | Ok arguments =>
              match dispatch w c function_name arguments with
              | (Raise e, c') =>
                  {| r_messages := messages; r_caches := c'; r_widgets := [];
                     r_exception := Some e |}
              | (Ok function_response, c') =>
                  let messages :=
                    messages ++ [function_message function_name function_response] in
                  match complete host messages with
                  | Raise e =>
                      {| r_messages := messages; r_caches := c'; r_widgets := [];
                         r_exception := Some e |}
                  | Ok final_message =>
                      {| r_messages := messages ++ [assistant_message final_message];
                         r_caches := c';
                         r_widgets :=
                           tool_widgets host w_chart function_name function_response
                             arguments
                           ++ [Success final_message];
                         r_exception := None |}
                  end
              end
          end
      | None =>
          let final_message := cm_content response_message in
          {| r_messages := messages ++ [assistant_message final_message];
             r_caches := c;
             r_widgets := [Success final_message];
             r_exception := None |}
      end
  end.

(** One run of the script. *)
Definition script_run (host : Host) (w w_chart : World) (c : caches)
    (stored : option (list message)) (user_input : string) : run :=
  let messages := session_messages stored in
  let top := header ++ download_button messages in
  if decide (user_input = "") then
    {| r_messages := messages; r_caches := c;
       r_widgets := top ++ display_history messages; r_exception := None |}
  else
    let turn := chat_turn host w w_chart c messages user_input in
    match r_exception turn with
    | Some e =>
        {| r_messages := r_messages turn; r_caches := r_caches turn;
           r_widgets := top ++ r_widgets turn; r_exception := Some e |}
    | None =>
        {| r_messages := r_messages turn; r_caches := r_caches turn;
           r_widgets := top ++ r_widgets turn ++ display_history (r_messages turn);
           r_exception := None |}
    end.

End Script.

(** *** Sample hosts *)

Definition ascii_lower (c : ascii) : ascii :=
  let n := nat_of_ascii c in
  if (65 <=? n)%nat && (n <=? 90)%nat then ascii_of_nat (n + 32) else c.

Fixpoint ascii_str_lower (s : string) : string :=
  match s with
  | EmptyString => EmptyString
  | String c rest => String (ascii_lower c) (ascii_str_lower rest)
  end.

(** The model asks for [function_name] with the given arguments and words
    its final answer; charts draw. *)
Definition host_calling (function_name : string) (arguments : gmap string string) : Host := {|
  complete_with_functions := λ _ _,
    Ok {| cm_content := None;
          cm_function_call :=
            Some {| fc_name := function_name; fc_arguments := "{...}" |} |};
  complete := λ _, Ok (Some "Done.");
  json_loads := λ _, Ok arguments;
  draw_chart := λ _ _, Ok tt;
  lower := ascii_str_lower;
|}.

(** The model answers directly. *)
Definition host_answering (answer : string) : Host := {|
  complete_with_functions := λ _ _,
    Ok {| cm_content := Some answer; cm_function_call := None |};
  complete := λ _, Ok (Some answer);
  json_loads := λ _, Raise "Expecting value";
  draw_chart := λ _ _, Ok tt;
  lower := ascii_str_lower;
|}.

(** *** Auxiliary notions of the further properties *)

(** The name the news search is made for. *)
Definition company_name `{Runtime} (w : World) (ticker_or_name : pyarg) : pyarg :=
  match yf_info w (find_ticker w ticker_or_name) with
  | Ok info =>
      match info !! "shortName" with
      | Some n => Some n
      | None => ticker_or_name
      end
  | Raise _ => ticker_or_name
  end.

(** The services of [w_online], the rate service answering 401 with a body
    that is no JSON. *)
Definition w_unauthorized : World := {|
  NEWSAPI_KEY := NEWSAPI_KEY w_online;
  OPENEXCHANGE_API_KEY := OPENEXCHANGE_API_KEY w_online;
  yf_info := yf_info w_online;
  yf_get_tickers := yf_get_tickers w_online;
  yf_history := yf_history w_online;
  requests_get := λ _, Ok {| status_code := 401; json := Raise "Expecting value" |};
  now_strftime := now_strftime w_online;
  clock := clock w_online;
|}.

(** The services of [w_online], the price service now without a row for any
    ticker. *)
Definition w_no_prices : World := {|
  NEWSAPI_KEY := NEWSAPI_KEY w_online;
  OPENEXCHANGE_API_KEY := OPENEXCHANGE_API_KEY w_online;
  yf_info := yf_info w_online;
  yf_get_tickers := yf_get_tickers w_online;
  yf_history := λ _, Ok [];
  requests_get := requests_get w_online;
  now_strftime := now_strftime w_online;
  clock := clock w_online;
|}.

(** The strings the two memoised operations may hand back from their stores
    are strings the operations return. *)
Definition caches_classified `{Runtime} (c : caches) : Prop :=
  (∀ k t s, news_cache c !! k = Some (t, s) → classified is_news_failure is_news_payload s)
  ∧ (∀ k t s, fx_cache c !! k = Some (t, s) → classified is_fx_failure is_fx_payload s).

(** A well-formed transcript: the system prompt first and nowhere else, and
    a name on exactly the function messages. *)
Definition turn_message (m : message) : Prop :=
  msg_role m ≠ System ∧ (msg_role m = Function ↔ is_Some (msg_name m)).

Definition transcript_ok (messages : list message) : Prop :=
  ∃ turns, messages = system_message :: turns ∧ Forall turn_message turns.

Section Sessions.
Context `{Runtime}.

(** What happens in one run of a session: the model and the widgets of the
    host, the answers of the services to the tool and to the widget step,
    and the text entered. *)
Record interaction := {
  i_host : Host;
  i_world : World;
  i_chart_world : World;
  i_input : string;
}.

(** The session state after a series of runs; Streamlit keeps it whether a
    run completed or raised. *)
Fixpoint session_after (steps : list interaction) (stored : option (list message))
    (c : caches) : option (list message) * caches :=
  match steps with
  | [] => (stored, c)
  | step :: steps =>
      let r := script_run (i_host step) (i_world step) (i_chart_world step) c stored (i_input step) in
      session_after steps (Some (r_messages r)) (r_caches r)
  end.

End Sessions.

(** * Properties *)

(** ** Strings *)

#[local] Arguments String.append !_ _ / : simpl nomatch.

Lemma str_app_assoc (a b c : string) : (a +:+ b) +:+ c = a +:+ (b +:+ c).
Proof. induction a as [|ch a IH]; simpl; congruence. Qed.

Lemma str_app_nil_r (a : string) : a +:+ "" = a.
Proof. induction a as [|ch a IH]; simpl; congruence. Qed.

Lemma prefix_app (s t : string) : String.prefix s (s +:+ t) = true.
Proof.
  induction s as [|c s IH]; simpl.
  - by destruct t.
  - destruct (ascii_dec c c); [exact IH | congruence].
Qed.

Lemma prefix_starts_with (s t : string) : String.prefix s t = true ↔ starts_with s t.
Proof.
  split.
  - revert t. induction s as [|c s IH]; intros t Hp.
    + by exists t.
    + destruct t as [|c' t]; simpl in Hp; [discriminate|].
      destruct (ascii_dec c c') as [->|]; [|discriminate].
      destruct (IH t Hp) as [r ->]. by exists r.
  - intros [r ->]. apply prefix_app.
Qed.

Lemma occurs_in_cons (s : string) (c : ascii) (t : string) :
  occurs_in s (String c t) = String.prefix s (String c t) || occurs_in s t.
Proof. reflexivity. Qed.

Lemma occurs_in_contains (s t : string) : occurs_in s t = true ↔ contains s t.
Proof.
  split.
  - induction t as [|c t IH]; intros Ho.
    + destruct s; [by exists "", "" | discriminate].
    + rewrite occurs_in_cons in Ho. apply orb_true_iff in Ho as [Hp|Ho].
      * apply prefix_starts_with in Hp as [r Hr]. by exists "", r.
      * destruct (IH Ho) as (b & a & ->). by exists (String c b), a.
  - intros (b & a & ->). induction b as [|c b IH].
    + assert (Hp : String.prefix s (s +:+ a) = true) by apply prefix_app.
      change ("" +:+ s +:+ a) with (s +:+ a).
      destruct (s +:+ a); [simpl in *; by rewrite Hp | by rewrite occurs_in_cons, Hp].
    + change (String c b +:+ s +:+ a) with (String c (b +:+ s +:+ a)).
      rewrite occurs_in_cons, IH. apply orb_true_r.
Qed.

Lemma not_contains (s t : string) : occurs_in s t = false → ¬ contains s t.
Proof. intros Hf Hc. apply occurs_in_contains in Hc. congruence. Qed.

Lemma contains_app_l (s a b : string) : contains s a → contains s (a +:+ b).
Proof.
  intros (x & y & ->). exists x, (y +:+ b). by rewrite !str_app_assoc.
Qed.

Lemma contains_app_r (s a b : string) : contains s b → contains s (a +:+ b).
Proof.
  intros (x & y & ->). exists (a +:+ x), y. by rewrite !str_app_assoc.
Qed.

Lemma contains_here (s a : string) : contains s (s +:+ a).
Proof. by exists "", a. Qed.

(** ** Outcomes *)

Lemma try_except_returns {A : Type} (body : outcome A) (handler : string → outcome A) :
  (∀ e, returns (handler e)) → returns (try_except body handler).
Proof. intros Hh. destruct body as [a|e]; simpl; [by exists a | apply Hh]. Qed.

Lemma last_nil_iff {A : Type} (l : list A) : last l = None ↔ l = [].
Proof. apply last_None. Qed.

(** ** Exceptions at the boundary of the client operations *)

Section Boundary.
Context `{Runtime}.

(** [find_ticker] is total by construction: its [except] clause swallows
    whatever the lookups raise and the raw query comes back. *)
Lemma find_ticker_falls_back (w : World) (query : pyarg) (e : string) :
  yf_info w query = Raise e → find_ticker w query = query.
Proof. intros Hi. unfold find_ticker. by rewrite Hi. Qed.

(** The [try] of [get_stock_price] spans everything after the ticker
    search, so the operation always returns. *)
Lemma get_stock_price_returns (w : World) (q : pyarg) : returns (get_stock_price w q).
Proof.
  unfold get_stock_price. apply try_except_returns.
  intros e. by exists (stock_data_error e).
Qed.

(** [get_stock_history] has no [try]: what the fetch raises, it raises. *)
Lemma get_stock_history_propagates (w : World) (q : pyarg) (e : string) :
  yf_history w (find_ticker w q) = Raise e → get_stock_history w q = Raise e.
Proof. intros Hh. unfold get_stock_history. by rewrite Hh. Qed.

(** So do [get_financial_news] and [get_exchange_rate] for the HTTP request,
    which stands before (or outside) their [try]. *)
Lemma get_financial_news_propagates (w : World) (q : pyarg) (e : string) :
  (∀ u, requests_get w u = Raise e) → get_financial_news w q = Raise e.
Proof. intros Hr. unfold get_financial_news. by rewrite Hr. Qed.

Lemma get_exchange_rate_propagates (w : World) (a b : pyarg) (e : string) :
  requests_get w (fx_url (OPENEXCHANGE_API_KEY w)) = Raise e →
  get_exchange_rate w a b = Raise e.
Proof. intros Hr. unfold get_exchange_rate. by rewrite Hr. Qed.

End Boundary.

(** C1 (fails on the code): not every client operation keeps exceptions
    inside.  With the network down, [get_stock_price] returns its
    failure-marked message with the support contact, while
    [get_stock_history], [get_financial_news] and [get_exchange_rate] raise
    to their caller. *)
Theorem only_get_stock_price_catches :
  get_stock_price w_offline (Some "AAPL")
  = Ok "❌ Error while retrieving stock data: Connection refused. Please contact support: 070-1234-5678"
  ∧ get_stock_history w_offline (Some "AAPL") = Raise "Connection refused"
  ∧ get_financial_news w_offline (Some "AAPL") = Raise "Connection refused"
  ∧ get_exchange_rate w_offline (Some "EUR") (Some "USD") = Raise "Connection refused".
Proof. repeat split; vm_compute; reflexivity. Qed.

(** ** Empty price history *)

(** C5: when the fetched 7-day history is empty, [get_stock_price] and
    [get_stock_history] return (they do not raise) two fixed strings that do
    not depend on the query or the world; both are failure-marked and they
    differ; only the current-price message asks to check the symbol, and
    neither names the support contact. *)
Theorem empty_history_messages `{Runtime} (w : World) (q : pyarg) :
  yf_history w (find_ticker w q) = Ok [] →
  get_stock_price w q = Ok price_data_missing
  ∧ get_stock_history w q = Ok stock_data_missing
  ∧ price_data_missing ≠ stock_data_missing
  ∧ failure_marked price_data_missing = true
  ∧ failure_marked stock_data_missing = true
  ∧ contains "Please check the ticker symbol" price_data_missing
  ∧ ¬ contains "check" stock_data_missing
  ∧ ¬ contains SUPPORT_PHONE_NUMBER price_data_missing
  ∧ ¬ contains SUPPORT_PHONE_NUMBER stock_data_missing.
Proof.
  intros Hh. split; [|split].
  - unfold get_stock_price. by rewrite Hh.
  - unfold get_stock_history. by rewrite Hh.
  - repeat split.
    + intros Heq. by apply (f_equal String.length) in Heq.
    + apply occurs_in_contains. reflexivity.
    + apply not_contains. reflexivity.
    + apply not_contains. reflexivity.
    + apply not_contains. reflexivity.
Qed.

Lemma empty_history_messages_witness :
  yf_history w_online (find_ticker w_online (Some "NOSUCH")) = Ok []
  ∧ get_stock_price w_online (Some "NOSUCH") = Ok price_data_missing
  ∧ get_stock_history w_online (Some "NOSUCH") = Ok stock_data_missing.
Proof.
  assert (Hh : yf_history w_online (find_ticker w_online (Some "NOSUCH")) = Ok [])
    by reflexivity.
  destruct (empty_history_messages w_online (Some "NOSUCH") Hh) as (Hp & Hs & _).
  split; [exact Hh | split; [exact Hp | exact Hs]].
Defined.

(** ** Currency codes missing from the rate table *)

(** C6: on a fetched rate table (status 200, body parsed), a pair with at
    least one code missing from the table gets the one generic message,
    whichever side is missing. *)
Theorem missing_code_pair_not_found `{Runtime} (w : World) (resp : response) (data : body)
    (from_currency to_currency : string) :
  requests_get w (fx_url (OPENEXCHANGE_API_KEY w)) = Ok resp →
  status_code resp = 200%Z →
  json resp = Ok data →
  rate_table data !! upper from_currency = None ∨ rate_table data !! upper to_currency = None →
  get_exchange_rate w (Some from_currency) (Some to_currency) = Ok pair_not_found.
Proof.
  intros Hr Hs Hj Hmiss. unfold get_exchange_rate.
  rewrite Hr. simpl. rewrite Hs, Hj. simpl.
  unfold exchange_rate, getitem. simpl.
  destruct (rate_table data !! upper from_currency) as [rate_from|] eqn:Hf; simpl.
  - destruct Hmiss as [Hm|Hm]; [discriminate|]. by rewrite Hm.
  - reflexivity.
Qed.

Lemma missing_code_pair_not_found_witness :
  get_exchange_rate w_online (Some "usd") (Some "xxx") = Ok pair_not_found
  ∧ get_exchange_rate w_online (Some "xxx") (Some "usd") = Ok pair_not_found
  ∧ get_exchange_rate w_online (Some "xxx") (Some "yyy") = Ok pair_not_found.
Proof.
  pose (resp := {| status_code := 200; json := Ok fx_body |}).
  split; [|split].
  - apply (missing_code_pair_not_found w_online resp fx_body "usd" "xxx");
      [reflexivity | reflexivity | reflexivity | right; reflexivity].
  - apply (missing_code_pair_not_found w_online resp fx_body "xxx" "usd");
      [reflexivity | reflexivity | reflexivity | left; reflexivity].
  - apply (missing_code_pair_not_found w_online resp fx_body "xxx" "yyy");
      [reflexivity | reflexivity | reflexivity | left; reflexivity].
Defined.

(** ** Dispatch of an unregistered tool name *)

(** C8: a function name outside the four registered ones makes the dispatch
    return the literal ["Unknown function call."]; no client operation runs
    (the caches are untouched), nothing is raised, and the string is appended
    to the transcript as a function message carrying the requested name. *)
Theorem unknown_function_call `{Runtime} (w : World) (c : caches) (messages : list message)
    (function_name : string) (arguments : gmap string string) :
  function_name ∉ registered_tools →
  dispatch w c function_name arguments = (Ok "Unknown function call.", c)
  ∧ run_function_call w c messages function_name arguments
    = (Ok (messages ++ [ {| msg_role := Function; msg_name := Some function_name;
                            content := Some "Unknown function call." |} ]), c).
Proof.
  intros Hnot.
  assert (Hd : dispatch w c function_name arguments = (Ok "Unknown function call.", c)).
  { unfold dispatch, registered_tools in *.
    repeat case_decide; subst; try reflexivity; exfalso; apply Hnot; set_solver. }
  split; [exact Hd|].
  unfold run_function_call. by rewrite Hd.
Qed.

Lemma unknown_function_call_witness :
  ("get_weather" ∉ registered_tools)
  ∧ dispatch w_online no_caches "get_weather" {["city" := "Oslo"]}
    = (Ok "Unknown function call.", no_caches).
Proof.
  assert (Hnot : "get_weather" ∉ registered_tools).
  { unfold registered_tools. intros Hin.
    repeat (apply elem_of_cons in Hin as [Hin|Hin]; [discriminate|]).
    by apply elem_of_nil in Hin. }
  split; [exact Hnot|].
  exact (proj1 (unknown_function_call w_online no_caches [] "get_weather"
                  {["city" := "Oslo"]} Hnot)).
Defined.

(** ** The downloaded transcript *)

Lemma write_message_line (output : string) (msg : message) :
  write_message output msg
  = output +:+ (if in_download msg then transcript_line msg else "").
Proof.
  unfold write_message, in_download, transcript_line.
  destruct (msg_role msg); by rewrite ?str_app_nil_r.
Qed.

Lemma fold_write_message (messages : list message) (output : string) :
  fold_left write_message messages output
  = output +:+ foldr String.append "" (transcript_lines messages).
Proof.
  revert output. induction messages as [|msg messages IH]; intros output.
  - by rewrite str_app_nil_r.
  - cbn [fold_left]. rewrite IH, write_message_line. unfold transcript_lines.
    cbn [List.filter]. destruct (in_download msg); cbn [map foldr].
    + by rewrite str_app_assoc.
    + by rewrite str_app_nil_r.
Qed.

(** C9: the download is the concatenation of the lines of the user and
    assistant messages, in transcript order, and of nothing else: dropping a
    system or function (tool-result) message from the transcript leaves the
    download as it is. *)
Theorem download_user_and_assistant_lines (messages : list message) :
  download_chat_history messages = foldr String.append "" (transcript_lines messages)
  ∧ length (transcript_lines messages)
    = length (List.filter (λ m, bool_decide (msg_role m = User)) messages)
      + length (List.filter (λ m, bool_decide (msg_role m = Assistant)) messages)
  ∧ ∀ before msg after,
      messages = before ++ msg :: after →
      msg_role msg = System ∨ msg_role msg = Function →
      download_chat_history (before ++ after) = download_chat_history messages.
Proof.
  split; [|split].
  - unfold download_chat_history. by rewrite fold_write_message.
  - unfold transcript_lines. rewrite length_map.
    induction messages as [|msg messages IH]; [reflexivity|].
    cbn [List.filter]. unfold in_download at 1.
    destruct (msg_role msg); simpl; lia.
  - intros before msg after -> Hrole. unfold download_chat_history.
    rewrite !fold_left_app. cbn [fold_left]. f_equal.
    unfold write_message. by destruct Hrole as [-> | ->].
Qed.

(** ** The current price on a non-empty history *)

Section CurrentPrice.
Context `{Runtime}.

(** The success path of [get_stock_price]: the history has a last row, the
    volume converts and the company metadata answers. *)
Lemma get_stock_price_success (w : World) (q : pyarg) (hist : list quote) (last_quote : quote)
    (volume : Z) (info : gmap string string) :
  yf_history w (find_ticker w q) = Ok hist →
  last hist = Some last_quote →
  num_int (Volume last_quote) = Ok volume →
  yf_info w (find_ticker w q) = Ok info →
  get_stock_price w q
  = Ok (price_payload (default (py_str (find_ticker w q)) (info !! "shortName"))
          (py_str (find_ticker w q)) (strftime_dmy (q_date last_quote))
          (num_round 2 (Close last_quote)) (num_round 2 (High last_quote))
          (num_round 2 (Low last_quote)) volume).
Proof.
  intros Hh Hl Hv Hi. unfold get_stock_price, short_name.
  rewrite Hh. simpl. rewrite Hl, Hv. simpl. by rewrite Hi.
Qed.

(** Whatever is raised after the fetch ends in the error message. *)
Lemma get_stock_price_info_error (w : World) (q : pyarg) (hist : list quote)
    (last_quote : quote) (volume : Z) (e : string) :
  yf_history w (find_ticker w q) = Ok hist →
  last hist = Some last_quote →
  num_int (Volume last_quote) = Ok volume →
  yf_info w (find_ticker w q) = Raise e →
  get_stock_price w q = Ok (stock_data_error e).
Proof.
  intros Hh Hl Hv Hi. unfold get_stock_price, short_name.
  rewrite Hh. simpl. rewrite Hl, Hv. simpl. by rewrite Hi.
Qed.

Lemma price_payload_parts (name ticker last_date : string) (price high low : num) (volume : Z) :
  let s := price_payload name ticker last_date price high low volume in
  contains ticker s ∧ contains last_date s
  ∧ contains ("Closing price: **" +:+ num_str price +:+ " USD**") s
  ∧ ends_with (yahoo_footer last_date) s.
Proof.
  unfold price_payload. repeat split.
  - do 3 apply contains_app_r. apply contains_here.
  - do 5 apply contains_app_r. apply contains_here.
  - do 8 apply contains_app_r. exists "". eexists.
    rewrite !str_app_assoc. reflexivity.
  - eexists. rewrite <- !str_app_assoc. reflexivity.
Qed.

End CurrentPrice.

(** C4 (as amended): when the fetched history is non-empty and nothing raises
    after the fetch (the volume of the last row converts to an integer and
    the company metadata answers), [get_stock_price] returns a string that
    contains the resolved ticker, the date of the last row and that row's
    close rounded to 2 decimals, and that ends with the source and date
    footer. *)
Theorem current_price_of_last_row `{Runtime} (w : World) (q : pyarg) (hist : list quote)
    (last_quote : quote) (volume : Z) (info : gmap string string) :
  yf_history w (find_ticker w q) = Ok hist →
  last hist = Some last_quote →
  num_int (Volume last_quote) = Ok volume →
  yf_info w (find_ticker w q) = Ok info →
  ∃ s, get_stock_price w q = Ok s
       ∧ contains (py_str (find_ticker w q)) s
       ∧ contains (strftime_dmy (q_date last_quote)) s
       ∧ contains ("Closing price: **" +:+ num_str (num_round 2 (Close last_quote)) +:+ " USD**") s
       ∧ ends_with (yahoo_footer (strftime_dmy (q_date last_quote))) s.
Proof.
  intros Hh Hl Hv Hi. eexists. split.
  - by apply (get_stock_price_success w q hist last_quote volume info).
  - apply price_payload_parts.
Qed.

Lemma current_price_of_last_row_witness :
  ∃ s, get_stock_price w_online (Some "Apple") = Ok s
       ∧ contains "AAPL" s
       ∧ contains "29.10.2025" s
       ∧ contains "Closing price: **269.7 USD**" s
       ∧ ends_with "_Source: Yahoo Finance (yfinance), as of 29.10.2025_" s.
Proof.
  exact (current_price_of_last_row w_online (Some "Apple") aapl_week
           (quote_of {| day := 29; month := 10; year := 2025 |}
              269.69975%Q 271.41%Q 267.11%Q 51086700%Q)
           51086700%Z {["symbol" := "AAPL"; "shortName" := "Apple Inc."]}
           eq_refl eq_refl eq_refl eq_refl).
Defined.

(** C4 (as stated) fails: in [w_no_info] the history of AAPL has three rows,
    yet the metadata lookup raises inside the [try] and the result is the
    error message, which holds neither the ticker, nor the date, nor the
    close. *)
Lemma nonempty_history_error_message :
  yf_history w_no_info (find_ticker w_no_info (Some "AAPL")) = Ok aapl_week
  ∧ length aapl_week = 3%nat
  ∧ get_stock_price w_no_info (Some "AAPL") = Ok (stock_data_error "HTTP Error 404")
  ∧ ¬ contains "AAPL" (stock_data_error "HTTP Error 404")
  ∧ ¬ contains "29.10.2025" (stock_data_error "HTTP Error 404")
  ∧ ¬ contains "269.7" (stock_data_error "HTTP Error 404").
Proof.
  split; [reflexivity|]. split; [reflexivity|]. split; [reflexivity|].
  repeat split; apply not_contains; reflexivity.
Qed.

(** ** Success payloads and failure markers *)

Section Payloads.
Context `{Runtime}.

Lemma fold_news_lines (news : list article) (result : string) :
  fold_left (λ result n, result +:+ news_line n) news result
  = result +:+ foldr (λ n r, news_line n +:+ r) "" news.
Proof.
  revert result. induction news as [|n news IH]; intros result; cbn [fold_left foldr].
  - by rewrite str_app_nil_r.
  - by rewrite IH, str_app_assoc.
Qed.

Lemma tail7_length {A : Type} (l : list A) : (length (tail7 l) ≤ 7)%nat.
Proof. unfold tail7. rewrite length_drop. lia. Qed.

Lemma tail7_nonempty {A : Type} (l : list A) : l ≠ [] → tail7 l ≠ [].
Proof.
  intros Hne Ht. apply (f_equal length) in Ht. unfold tail7 in Ht.
  rewrite length_drop in Ht. destruct l; [done | simpl in Ht; lia].
Qed.

Lemma get_stock_price_classified (w : World) (q : pyarg) :
  every_result (classified is_price_failure is_price_payload) (get_stock_price w q).
Proof.
  unfold get_stock_price, short_name.
  destruct (yf_history w (find_ticker w q)) as [hist|e]; simpl.
  2: { left. split; [reflexivity | right; by exists e]. }
  destruct (last hist) as [last_quote|]; simpl.
  2: { left. split; [reflexivity | by left]. }
  destruct (num_int (Volume last_quote)) as [volume|e]; simpl.
  2: { left. split; [reflexivity | right; by exists e]. }
  destruct (yf_info w (find_ticker w q)) as [info|e]; simpl.
  2: { left. split; [reflexivity | right; by exists e]. }
  right. split; [reflexivity | unfold is_price_payload; eauto 10].
Qed.

Lemma get_stock_history_classified (w : World) (q : pyarg) :
  every_result (classified is_history_failure is_history_payload) (get_stock_history w q).
Proof.
  unfold get_stock_history, short_name.
  destruct (yf_history w (find_ticker w q)) as [hist|e]; simpl; [|exact I].
  destruct hist as [|row hist]; simpl.
  { left. by split. }
  destruct (yf_info w (find_ticker w q)) as [info|e]; simpl; [|exact I].
  right. split; [reflexivity|].
  eexists _, _, (reverse (tail7 (row :: hist))). split; [|split; [|reflexivity]].
  - intros Hr. apply (f_equal reverse) in Hr. rewrite reverse_involutive in Hr.
    by apply (tail7_nonempty (row :: hist)).
  - rewrite length_reverse. apply tail7_length.
Qed.

Lemma get_financial_news_classified (w : World) (q : pyarg) :
  every_result (classified is_news_failure is_news_payload) (get_financial_news w q).
Proof.
  unfold get_financial_news.
  destruct (requests_get w _) as [resp|e]; simpl; [|exact I].
  case_bool_decide; simpl.
  { left. split; [reflexivity | by eexists]. }
  destruct (json resp) as [data|e]; simpl; [|exact I].
  destruct (default [] (articles data)) as [|first rest] eqn:Hnews; simpl.
  { right. split; [reflexivity | left; by eexists]. }
  right. rewrite fold_news_lines. split; [reflexivity|].
  right. exists first, rest, (now_strftime w). reflexivity.
Qed.

Lemma get_exchange_rate_classified (w : World) (a b : pyarg) :
  every_result (classified is_fx_failure is_fx_payload) (get_exchange_rate w a b).
Proof.
  unfold get_exchange_rate.
  destruct (requests_get w _) as [resp|e]; simpl; [|exact I].
  case_bool_decide; simpl.
  { left. split; [reflexivity | right; by eexists]. }
  destruct (json resp) as [data|e]; simpl; [|exact I].
  destruct (exchange_rate (rate_table data) a b) as [r|e]; simpl.
  2: { left. split; [reflexivity | by left]. }
  destruct (utc_strftime _) as [ts|e]; simpl.
  2: { left. split; [reflexivity | by left]. }
  destruct (py_upper a) as [f|e]; simpl.
  2: { left. split; [reflexivity | by left]. }
  destruct (py_upper b) as [t|e]; simpl.
  2: { left. split; [reflexivity | by left]. }
  right. split; [reflexivity | unfold is_fx_payload; eauto 10].
Qed.

End Payloads.

(** C7: every string returned by [get_stock_price], [get_stock_history],
    [get_financial_news] or [get_exchange_rate] is either one of the
    operation's failure messages, and then it begins with the failure
    marker, or one of its payloads (for the news, the article list or the
    notice that no news was found), and then it does not: the start of the
    string tells failure from success. *)
Theorem results_success_or_failure_marked `{Runtime} (w : World) (q a b : pyarg) :
  every_result (classified is_price_failure is_price_payload) (get_stock_price w q)
  ∧ every_result (classified is_history_failure is_history_payload) (get_stock_history w q)
  ∧ every_result (classified is_news_failure is_news_payload) (get_financial_news w q)
  ∧ every_result (classified is_fx_failure is_fx_payload) (get_exchange_rate w a b).
Proof.
  split; [apply get_stock_price_classified|].
  split; [apply get_stock_history_classified|].
  split; [apply get_financial_news_classified | apply get_exchange_rate_classified].
Qed.

(** ** Case of the currency codes *)

Lemma ascii_upper_idempotent (c : ascii) : ascii_upper (ascii_upper c) = ascii_upper c.
Proof. destruct c as [[] [] [] [] [] [] [] []]; reflexivity. Qed.

Lemma ascii_str_upper_idempotent (s : string) :
  ascii_str_upper (ascii_str_upper s) = ascii_str_upper s.
Proof.
  induction s as [|c s IH]; simpl; [reflexivity|].
  by rewrite ascii_upper_idempotent, IH.
Qed.

(** C10: [get_exchange_rate] reads its two codes only through [upper], so
    (upper-casing an upper-cased string changing nothing) the call on the
    codes as given and the call on the upper-cased codes have the same
    outcome; and a success message reads "1 FROM = **rate TO**" on its first
    line, with FROM and TO the upper-cased codes, followed by the source
    line. *)
Theorem get_exchange_rate_case_insensitive `{Runtime} (w : World)
    (from_currency to_currency : string) :
  (∀ s, upper (upper s) = upper s) →
  get_exchange_rate w (Some from_currency) (Some to_currency)
  = get_exchange_rate w (Some (upper from_currency)) (Some (upper to_currency))
  ∧ every_result
      (λ s, failure_marked s = false →
            ∃ exchange_rate timestamp,
              s = "1 " +:+ upper from_currency +:+ " = **" +:+ num_str exchange_rate +:+ " "
                  +:+ upper to_currency +:+ "**" +:+ nl
                  +:+ "_Source: Open Exchange Rates, as of " +:+ timestamp +:+ " UTC_")
      (get_exchange_rate w (Some from_currency) (Some to_currency)).
Proof.
  intros Hidem. split.
  - unfold get_exchange_rate, exchange_rate, py_upper. by rewrite !Hidem.
  - unfold get_exchange_rate.
    destruct (requests_get w _) as [resp|e]; simpl; [|exact I].
    case_bool_decide; simpl; [discriminate|].
    destruct (json resp) as [data|e]; simpl; [|exact I].
    destruct (exchange_rate _ _ _) as [r|e]; simpl; [|discriminate].
    destruct (utc_strftime _) as [ts|e]; simpl; [|discriminate].
    intros _. by exists r, ts.
Qed.

Lemma get_exchange_rate_case_insensitive_witness :
  get_exchange_rate w_online (Some "eur") (Some "Usd")
  = get_exchange_rate w_online (Some "EUR") (Some "USD")
  ∧ get_exchange_rate w_online (Some "eur") (Some "Usd")
    = Ok ("1 EUR = **1.25 USD**" +:+ nl
          +:+ "_Source: Open Exchange Rates, as of 29.10.2025 10:00 UTC_").
Proof.
  split.
  - exact (proj1 (get_exchange_rate_case_insensitive w_online "eur" "Usd"
                    ascii_str_upper_idempotent)).
  - reflexivity.
Defined.

(** ** The memo of the exchange-rate lookup

    The lemmas of this section are about [cache_data], the model of the
    decorator: which arguments make up the key of a store is decided by the
    decorator's own code, which the repository does not hold, and the
    lemmas say what follows when the key is the tuple of the arguments. *)

Section Memo.
Context {K V : Type} `{Countable K}.

(** What a memoised call returns depends on the store only through the
    entry of its own arguments. *)
Lemma cache_data_own_entry (ttl now : nat) (f : K → outcome V)
    (store store' : gmap K (nat * V)) (args : K) :
  store !! args = store' !! args →
  (cache_data ttl f now store args).1 = (cache_data ttl f now store' args).1.
Proof.
  intros Heq. unfold cache_data. rewrite <- Heq.
  destruct (store !! args) as [[stored_at v]|].
  - case_decide; [reflexivity|]. by destruct (f args).
  - by destruct (f args).
Qed.

(** A call writes no entry but that of its own arguments. *)
Lemma cache_data_other_entry (ttl now : nat) (f : K → outcome V)
    (store : gmap K (nat * V)) (args other : K) :
  args ≠ other → (cache_data ttl f now store args).2 !! other = store !! other.
Proof.
  intros Hne. unfold cache_data.
  destruct (store !! args) as [[stored_at v]|].
  - case_decide; [reflexivity|].
    destruct (f args); simpl; [by rewrite lookup_insert_ne | reflexivity].
  - destruct (f args); simpl; [by rewrite lookup_insert_ne | reflexivity].
Qed.

Lemma cache_data_miss (ttl now : nat) (f : K → outcome V)
    (store : gmap K (nat * V)) (args : K) :
  store !! args = None → (cache_data ttl f now store args).1 = f args.
Proof. intros Hm. unfold cache_data. rewrite Hm. by destruct (f args). Qed.

(** After a computed call, the same arguments are served from the store
    for [ttl] seconds, whatever the function would now compute. *)
Lemma cache_data_hit (ttl now now' : nat) (f f' : K → outcome V)
    (store : gmap K (nat * V)) (args : K) (v : V) :
  store !! args = None → f args = Ok v → (now' < now + ttl)%nat →
  (cache_data ttl f' now' (cache_data ttl f now store args).2 args).1 = Ok v.
Proof.
  intros Hm Hf Hlt. unfold cache_data at 2. rewrite Hm, Hf. simpl.
  unfold cache_data. rewrite lookup_insert_eq. by rewrite decide_True.
Qed.

End Memo.

Section FxMemo.
Context `{Runtime}.

Lemma fx_cached_fst (w : World) (c : caches) (a b : pyarg) :
  (get_exchange_rate_cached w c a b).1
  = (cache_data 300 (λ args, get_exchange_rate w args.1 args.2) (clock w) (fx_cache c)
       (a, b)).1.
Proof. unfold get_exchange_rate_cached. by destruct (cache_data _ _ _ _ _). Qed.

Lemma fx_cached_store (w : World) (c : caches) (a b : pyarg) :
  fx_cache (get_exchange_rate_cached w c a b).2
  = (cache_data 300 (λ args, get_exchange_rate w args.1 args.2) (clock w) (fx_cache c)
       (a, b)).2.
Proof. unfold get_exchange_rate_cached. by destruct (cache_data _ _ _ _ _). Qed.

(** A call for one pair leaves the outcome of a call for another pair as it
    would have been. *)
Lemma fx_cached_other_pair (w1 w2 : World) (c : caches) (from1 to1 from2 to2 : pyarg) :
  (from1, to1) ≠ (from2, to2) →
  (get_exchange_rate_cached w2 (get_exchange_rate_cached w1 c from1 to1).2 from2 to2).1
  = (get_exchange_rate_cached w2 c from2 to2).1.
Proof.
  intros Hne. rewrite !fx_cached_fst. apply cache_data_own_entry.
  rewrite fx_cached_store. by apply cache_data_other_entry.
Qed.

Lemma fx_cached_fresh (w : World) (c : caches) (a b : pyarg) :
  fx_cache c !! (a, b) = None →
  (get_exchange_rate_cached w c a b).1 = get_exchange_rate w a b.
Proof. intros Hm. rewrite fx_cached_fst. by rewrite cache_data_miss. Qed.

End FxMemo.

(** On the memo model the store of [get_exchange_rate] is keyed by the pair
    of arguments.  A call for a different pair has no effect on what a call
    returns; with no entry of its own pair, the call returns what its own
    computation gives; and a call with the very same pair, within 300
    seconds of the computed one, is served the stored string. *)
Theorem fx_cache_keyed_by_pair `{Runtime} (w1 w2 : World) (c : caches)
    (from1 to1 from2 to2 : pyarg) :
  (from1, to1) ≠ (from2, to2) →
  (get_exchange_rate_cached w2 (get_exchange_rate_cached w1 c from1 to1).2 from2 to2).1
  = (get_exchange_rate_cached w2 c from2 to2).1
  ∧ (fx_cache c !! (from2, to2) = None →
     (get_exchange_rate_cached w2 (get_exchange_rate_cached w1 c from1 to1).2 from2 to2).1
     = get_exchange_rate w2 from2 to2)
  ∧ (∀ r, fx_cache c !! (from1, to1) = None →
          get_exchange_rate w1 from1 to1 = Ok r →
          (clock w2 < clock w1 + 300)%nat →
          (get_exchange_rate_cached w2 (get_exchange_rate_cached w1 c from1 to1).2 from1 to1).1
          = Ok r).
Proof.
  intros Hne. split; [|split].
  - by apply fx_cached_other_pair.
  - intros Hm. rewrite fx_cached_other_pair by done. by apply fx_cached_fresh.
  - intros r Hm Hr Hlt. rewrite fx_cached_fst, fx_cached_store.
    by apply (cache_data_hit 300 (clock w1) (clock w2)
                (λ args, get_exchange_rate w1 args.1 args.2)).
Qed.

Lemma fx_cache_keyed_by_pair_witness :
  (Some "usd", Some "eur") ≠ (Some "eur", Some "usd")
  ∧ (get_exchange_rate_cached w_later
       (get_exchange_rate_cached w_online no_caches (Some "usd") (Some "eur")).2
       (Some "eur") (Some "usd")).1
    = get_exchange_rate w_later (Some "eur") (Some "usd").
Proof.
  assert (Hne : (Some "usd", Some "eur") ≠ (Some "eur", Some "usd")) by discriminate.
  split; [exact Hne|].
  exact (proj1 (proj2 (fx_cache_keyed_by_pair w_online w_later no_caches
                         (Some "usd") (Some "eur") (Some "eur") (Some "usd") Hne))
           eq_refl).
Defined.

(** The two calls of the witness, run: the second pair gets its own rate,
    not the string stored for the first. *)
Example fx_cache_two_pairs :
  (get_exchange_rate_cached w_online no_caches (Some "usd") (Some "eur")).1
  = Ok ("1 USD = **0.8 EUR**" +:+ nl
        +:+ "_Source: Open Exchange Rates, as of 29.10.2025 10:00 UTC_")
  ∧ (get_exchange_rate_cached w_later
       (get_exchange_rate_cached w_online no_caches (Some "usd") (Some "eur")).2
       (Some "eur") (Some "usd")).1
    = Ok ("1 EUR = **1.25 USD**" +:+ nl
          +:+ "_Source: Open Exchange Rates, as of 29.10.2025 10:00 UTC_").
Proof. split; vm_compute; reflexivity. Qed.

(** On the memo model there is no pair of calls for different currency
    pairs, however close in time, in which the second call returns anything
    but the outcome of its own computation. *)
Lemma fx_cache_never_serves_another_pair :
  ¬ ∃ (R : Runtime) (w1 w2 : World) (from1 to1 from2 to2 : pyarg),
      (from1, to1) ≠ (from2, to2)
      ∧ (clock w2 < clock w1 + 300)%nat
      ∧ (get_exchange_rate_cached w2
           (get_exchange_rate_cached w1 no_caches from1 to1).2 from2 to2).1
        ≠ get_exchange_rate w2 from2 to2.
Proof.
  intros (R & w1 & w2 & from1 & to1 & from2 & to2 & Hne & _ & Hdiff).
  apply Hdiff. rewrite fx_cached_other_pair by done. by apply fx_cached_fresh.
Qed.

(** ** Round trip of a rate and its inverse *)

Lemma round_half_even_close (x : Q) :
  (Qabs (inject_Z (round_half_even x) - x) <= 1 # 2)%Q.
Proof.
  unfold round_half_even.
  pose proof (Qfloor_le x) as Hlo. pose proof (Qlt_floor x) as Hhi.
  rewrite inject_Z_plus in Hhi. change (inject_Z 1) with 1%Q in Hhi.
  apply Qabs_Qle_condition.
  destruct (Qcompare_spec (x - inject_Z (Qfloor x)) (1 # 2)) as [Heq|Hlt|Hgt].
  - destruct (Z.even (Qfloor x)); rewrite ?inject_Z_plus;
      change (inject_Z 1) with 1%Q; split; lra.
  - split; lra.
  - rewrite inject_Z_plus. change (inject_Z 1) with 1%Q. split; lra.
Qed.

(** Rounding to 4 decimals moves a number by at most half a unit of the
    fourth decimal. *)
Lemma Qround4_close (x : Q) : (Qabs (Qround 4 x - x) <= 1 # 20000)%Q.
Proof.
  unfold Qround. rewrite Qred_correct.
  pose proof (round_half_even_close (x * scale 4)) as Hc.
  change (scale 4) with 10000%Q in *.
  apply Qabs_Qle_condition in Hc. apply Qabs_Qle_condition.
  set (z := inject_Z (round_half_even (x * 10000))) in *.
  change (z / 10000)%Q with (z * (1 # 10000))%Q.
  split; lra.
Qed.

(** The reference numbers divide without error and round within half a unit
    of the fourth decimal. *)
Lemma Qtruediv_exact (n d : Q) :
  ¬ (d == 0)%Q →
  ∃ q, Qtruediv n d = Ok q ∧ (Qabs (q - n / d) <= 0 * Qabs (n / d))%Q.
Proof.
  intros Hd. exists (Qred (n / d)). unfold Qtruediv.
  destruct (Qeq_bool d 0) eqn:Hz; [by apply Qeq_bool_iff in Hz|].
  split; [reflexivity|].
  assert (Hq : (Qred (n / d) - n / d == 0)%Q) by (rewrite Qred_correct; ring).
  rewrite Hq. change (Qabs 0) with 0%Q.
  generalize (Qabs (n / d)). intros t. lra.
Qed.

Lemma Qround4_accurate (q : Q) :
  (Qabs (Qround 4 q - q) <= (1 # 20000) + 0 * Qabs q)%Q.
Proof. pose proof (Qround4_close q). lra. Qed.

Lemma product_close (p q r1 r2 e1 e2 : Q) :
  (p * q == 1)%Q → (Qabs (r1 - p) <= e1)%Q → (Qabs (r2 - q) <= e2)%Q →
  (Qabs (r1 * r2 - 1) <= e1 * Qabs q + e2 * Qabs p + e1 * e2)%Q.
Proof.
  intros Hpq H1 H2.
  assert (Heq : (r1 * r2 - 1 == (r1 - p) * (r2 - q) + ((r1 - p) * q + p * (r2 - q)))%Q).
  { transitivity (r1 * r2 - p * q)%Q; [by rewrite Hpq | ring]. }
  rewrite Heq.
  eapply Qle_trans; [apply Qabs_triangle|].
  eapply Qle_trans; [apply Qplus_le_compat; [apply Qle_refl | apply Qabs_triangle]|].
  rewrite !Qabs_Qmult.
  pose proof (Qabs_nonneg (r1 - p)). pose proof (Qabs_nonneg (r2 - q)).
  pose proof (Qabs_nonneg p). pose proof (Qabs_nonneg q).
  nra.
Qed.

(** A quotient within the relative error [u] of [rho], rounded within
    [h + u * |quotient|], is within [h + (2u + u^2) * |rho|] of [rho]. *)
Lemma rounded_quotient_close (u h rho q r : Q) :
  (0 <= u)%Q →
  (Qabs (q - rho) <= u * Qabs rho)%Q →
  (Qabs (r - q) <= h + u * Qabs q)%Q →
  (Qabs (r - rho) <= h + (2 * u + u * u) * Qabs rho)%Q.
Proof.
  intros Hu Hq Hr.
  assert (Hqabs : (Qabs q <= Qabs rho + u * Qabs rho)%Q).
  { pose proof (Qabs_triangle (q - rho) rho) as Ht.
    assert (E : (q - rho + rho == q)%Q) by ring.
    rewrite E in Ht. lra. }
  pose proof (Qabs_triangle (r - q) (q - rho)) as Ht.
  assert (E : (r - q + (q - rho) == r - rho)%Q) by ring.
  rewrite E in Ht.
  pose proof (Qabs_nonneg rho). pose proof (Qabs_nonneg q).
  nra.
Qed.

(** The rate the lookup reports for two codes of the table is the rounded
    quotient of their entries. *)
Lemma exchange_rate_quotient `{Runtime} (table : gmap string num) (a b : string)
    (x y q : num) :
  table !! upper a = Some x →
  table !! upper b = Some y →
  num_div y x = Ok q →
  exchange_rate table (Some a) (Some b) = Ok (num_round 4 q).
Proof.
  intros Ha Hb Hq. unfold exchange_rate, getitem. simpl.
  rewrite Ha. simpl. rewrite Hb. simpl. by rewrite Hq.
Qed.




(** * Further properties of the code *)

(** ** Ticker search *)

(** For a string query the search returns a string: the query itself, the
    symbol of the company metadata, or the first ticker of the search, the
    latter only when the metadata holds no symbol.  When the metadata lookup
    raises, the search is not consulted and the query comes back. *)
Theorem find_ticker_result `{Runtime} (w : World) (query : string) :
  (∃ ticker, find_ticker w (Some query) = Some ticker
     ∧ (ticker = query
        ∨ (∃ info, yf_info w (Some query) = Ok info ∧ info !! "symbol" = Some ticker)
        ∨ (∃ info rest, yf_info w (Some query) = Ok info ∧ info !! "symbol" = None
                        ∧ yf_get_tickers w (Some query) = Ok (ticker :: rest))))
  ∧ (∀ info symbol, yf_info w (Some query) = Ok info → info !! "symbol" = Some symbol →
                    find_ticker w (Some query) = Some symbol)
  ∧ (∀ e, yf_info w (Some query) = Raise e → find_ticker w (Some query) = Some query).
Proof.
  split; [|split].
  - unfold find_ticker.
    destruct (yf_info w (Some query)) as [info|e] eqn:Hi; simpl; [|by eauto].
    case_bool_decide as Hne.
    + destruct (info !! "symbol") as [symbol|] eqn:Hs; simpl; [by eauto 10|].
      destruct (yf_get_tickers w (Some query)) as [[|first rest]|e] eqn:Ht; simpl;
        eauto 10.
    + subst info.
      destruct (yf_get_tickers w (Some query)) as [[|first rest]|e] eqn:Ht; simpl;
        eauto 10.
  - intros info symbol Hi Hs. unfold find_ticker. rewrite Hi. simpl.
    rewrite bool_decide_eq_true_2; [by rewrite Hs|].
    intros ->. by rewrite lookup_empty in Hs.
  - intros e Hi. unfold find_ticker. by rewrite Hi.
Qed.

(** ** Rows of the price history *)

Lemma tail7_lookup {A : Type} (l : list A) (i : nat) :
  (i < length (tail7 l))%nat →
  reverse (tail7 l) !! i = l !! (length l - 1 - i)%nat.
Proof.
  intros Hi. rewrite reverse_lookup by done. unfold tail7 in *.
  rewrite length_drop in *. rewrite lookup_drop. f_equal. lia.
Qed.

(** On a non-empty history whose company metadata answers, the text lists
    [min (length hist) 7] rows under the header, and its i-th row is the
    i-th row from the end of the fetched history: latest first, the last
    seven at most. *)
Theorem history_rows_latest_first `{Runtime} (w : World) (q : pyarg) (hist : list quote)
    (info : gmap string string) :
  yf_history w (find_ticker w q) = Ok hist →
  hist ≠ [] →
  yf_info w (find_ticker w q) = Ok info →
  ∃ rows : list quote,
    get_stock_history w q
    = Ok (history_header (default (py_str (find_ticker w q)) (info !! "shortName"))
            (py_str (find_ticker w q))
          +:+ String.concat nl (map history_line rows))
    ∧ length rows = Nat.min (length hist) 7
    ∧ ∀ i, (i < length rows)%nat → rows !! i = hist !! (length hist - 1 - i)%nat.
Proof.
  intros Hh Hne Hi. exists (reverse (tail7 hist)). split; [|split].
  - unfold get_stock_history, short_name. rewrite Hh. simpl.
    destruct hist as [|row hist]; [done|]. by rewrite Hi.
  - rewrite length_reverse. unfold tail7. rewrite length_drop. lia.
  - intros i Hlt. rewrite length_reverse in Hlt. by apply tail7_lookup.
Qed.

Lemma history_rows_latest_first_witness :
  ∃ rows : list quote,
    get_stock_history w_online (Some "Apple")
    = Ok (history_header "Apple Inc." "AAPL" +:+ String.concat nl (map history_line rows))
    ∧ length rows = 3%nat
    ∧ ∀ i, (i < length rows)%nat → rows !! i = aapl_week !! (3 - 1 - i)%nat.
Proof.
  assert (Hne : aapl_week ≠ []) by discriminate.
  exact (history_rows_latest_first w_online (Some "Apple") aapl_week
           {["symbol" := "AAPL"; "shortName" := "Apple Inc."]} eq_refl Hne eq_refl).
Defined.

(** ** The exchange rate on a fetched table *)

Section FetchedTable.
Context `{Runtime}.

(** The body of [get_exchange_rate] once the table is there. *)
Lemma get_exchange_rate_fetched (w : World) (resp : response) (data : body) (a b : pyarg) :
  requests_get w (fx_url (OPENEXCHANGE_API_KEY w)) = Ok resp →
  status_code resp = 200%Z →
  json resp = Ok data →
  get_exchange_rate w a b
  = try_except
      (exchange_rate <~ exchange_rate (rate_table data) a b ;;
       timestamp <~ utc_strftime (default 0%Z (timestamp data)) ;;
       from_code <~ py_upper a ;;
       to_code <~ py_upper b ;;
       Ok (fx_payload from_code exchange_rate to_code timestamp))
      (λ _, Ok pair_not_found).
Proof.
  intros Hr Hs Hj. unfold get_exchange_rate. rewrite Hr. simpl.
  rewrite Hs, Hj. reflexivity.
Qed.

End FetchedTable.

(** On a fetched rate table (status 200, body parsed) the lookup returns
    either the generic pair-not-found message or the payload, and the
    payload exactly when both arguments are strings whose upper-cased codes
    are in the table, the division succeeds and the table's timestamp (0
    when the body has none) formats: then the text reads "1 FROM = **rate
    TO**" with the upper-cased codes and the quotient rounded to 4 decimals,
    and on its second line the source with that timestamp.  A rate
    that cannot be divided by, a missing argument and a bad timestamp all end
    in the same pair-not-found message. *)
Theorem get_exchange_rate_on_fetched_table `{Runtime} (w : World) (resp : response)
    (data : body) (a b : pyarg) :
  requests_get w (fx_url (OPENEXCHANGE_API_KEY w)) = Ok resp →
  status_code resp = 200%Z →
  json resp = Ok data →
  (get_exchange_rate w a b = Ok "❌ The currency pair could not be found."
   ∨ ∃ from_code to_code rate_from rate_to ratio stamp,
       a = Some from_code ∧ b = Some to_code
       ∧ rate_table data !! upper from_code = Some rate_from
       ∧ rate_table data !! upper to_code = Some rate_to
       ∧ num_div rate_to rate_from = Ok ratio
       ∧ utc_strftime (default 0%Z (timestamp data)) = Ok stamp
       ∧ get_exchange_rate w a b
         = Ok ("1 " +:+ upper from_code +:+ " = **" +:+ num_str (num_round 4 ratio) +:+ " "
               +:+ upper to_code +:+ "**" +:+ nl
               +:+ "_Source: Open Exchange Rates, as of " +:+ stamp +:+ " UTC_"))
  ∧ (∀ from_code to_code rate_from rate_to ratio stamp,
       a = Some from_code → b = Some to_code →
       rate_table data !! upper from_code = Some rate_from →
       rate_table data !! upper to_code = Some rate_to →
       num_div rate_to rate_from = Ok ratio →
       utc_strftime (default 0%Z (timestamp data)) = Ok stamp →
       get_exchange_rate w a b
       = Ok ("1 " +:+ upper from_code +:+ " = **" +:+ num_str (num_round 4 ratio) +:+ " "
               +:+ upper to_code +:+ "**" +:+ nl
               +:+ "_Source: Open Exchange Rates, as of " +:+ stamp +:+ " UTC_"))
  ∧ (∀ from_code to_code rate_from rate_to e,
       a = Some from_code → b = Some to_code →
       rate_table data !! upper from_code = Some rate_from →
       rate_table data !! upper to_code = Some rate_to →
       num_div rate_to rate_from = Raise e →
       get_exchange_rate w a b = Ok "❌ The currency pair could not be found.").
Proof.
  intros Hr Hs Hj.
  rewrite (get_exchange_rate_fetched w resp data a b Hr Hs Hj).
  unfold exchange_rate, getitem. split; [|split].
  - destruct a as [from_code|]; simpl; [|by left].
    destruct (rate_table data !! upper from_code) as [rate_from|] eqn:Hf; simpl; [|by left].
    destruct b as [to_code|]; simpl; [|by left].
    destruct (rate_table data !! upper to_code) as [rate_to|] eqn:Ht; simpl; [|by left].
    destruct (num_div rate_to rate_from) as [ratio|e] eqn:Hd; simpl; [|by left].
    destruct (utc_strftime _) as [stamp|e] eqn:Hu; simpl; [|by left].
    right. exists from_code, to_code, rate_from, rate_to, ratio, stamp. done.
  - intros from_code to_code rate_from rate_to ratio stamp -> -> Hf Ht Hd Hu. simpl.
    rewrite Hf. simpl. rewrite Ht. simpl. rewrite Hd. simpl. by rewrite Hu.
  - intros from_code to_code rate_from rate_to e -> -> Hf Ht Hd. simpl.
    rewrite Hf. simpl. rewrite Ht. simpl. by rewrite Hd.
Qed.

Lemma get_exchange_rate_on_fetched_table_witness :
  get_exchange_rate w_online (Some "eur") (Some "jpy")
  = Ok ("1 EUR = **187.5 JPY**" +:+ nl
        +:+ "_Source: Open Exchange Rates, as of 29.10.2025 10:00 UTC_").
Proof.
  exact (proj1 (proj2 (get_exchange_rate_on_fetched_table w_online
                         {| status_code := 200; json := Ok fx_body |} fx_body
                         (Some "eur") (Some "jpy") eq_refl eq_refl eq_refl))
           "eur" "jpy" 0.8%Q 150%Q (Qred (150 / 0.8)) "29.10.2025 10:00"
           eq_refl eq_refl eq_refl eq_refl eq_refl eq_refl).
Defined.

(** ** Responses other than 200 *)

(** A response whose status is not 200 is reported with its status code:
    its body is not parsed (it may be no JSON at all), and for the exchange
    rate the two arguments are not looked at. *)
Theorem status_error_whatever_the_body `{Runtime} (w : World) (resp : response) :
  status_code resp ≠ 200%Z →
  (requests_get w (fx_url (OPENEXCHANGE_API_KEY w)) = Ok resp →
   ∀ a b, get_exchange_rate w a b = Ok (fx_error (status_code resp)))
  ∧ (∀ q, requests_get w (news_url (company_name w q) (NEWSAPI_KEY w)) = Ok resp →
          get_financial_news w q = Ok (news_error (status_code resp))).
Proof.
  intros Hs. split.
  - intros Hr a b. unfold get_exchange_rate. rewrite Hr. simpl.
    by rewrite bool_decide_eq_true_2.
  - intros q Hr. unfold get_financial_news. fold (company_name w q).
    rewrite Hr. simpl. by rewrite bool_decide_eq_true_2.
Qed.

Lemma status_error_whatever_the_body_witness :
  get_exchange_rate w_unauthorized None (Some "usd")
  = Ok "❌ Error while retrieving exchange rate (Status 401)."
  ∧ get_financial_news w_unauthorized (Some "Apple")
    = Ok "❌ Error while retrieving news (Status 401).".
Proof.
  pose (resp := {| status_code := 401; json := Raise "Expecting value" |} : response).
  assert (Hs : status_code resp ≠ 200%Z) by discriminate.
  destruct (status_error_whatever_the_body w_unauthorized resp Hs) as [Hfx Hnews].
  split.
  - exact (Hfx eq_refl None (Some "usd")).
  - exact (Hnews (Some "Apple") eq_refl).
Defined.

(** ** The article list *)

Lemma foldr_news_lines `{Runtime} (news : list article) :
  foldr (λ n r, news_line n +:+ r) "" news = foldr String.append "" (map news_line news).
Proof. induction news as [|n news IH]; cbn [foldr map]; [reflexivity | by rewrite IH]. Qed.

(** On a 200 response with at least one article, the news text has one line
    per article, in the order of the response, followed by the footer with
    the retrieval time. *)
Theorem news_one_line_per_article `{Runtime} (w : World) (q : pyarg) (resp : response)
    (data : body) (first : article) (rest : list article) :
  requests_get w (news_url (company_name w q) (NEWSAPI_KEY w)) = Ok resp →
  status_code resp = 200%Z →
  json resp = Ok data →
  articles data = Some (first :: rest) →
  get_financial_news w q
  = Ok (foldr String.append "" (map news_line (first :: rest))
        +:+ news_footer (now_strftime w)).
Proof.
  intros Hr Hs Hj Ha. rewrite <- foldr_news_lines.
  match goal with |- _ = ?r => set (text := r) end.
  unfold get_financial_news. fold (company_name w q).
  rewrite Hr. simpl. rewrite Hs, Hj. simpl. rewrite Ha. simpl.
  by rewrite fold_news_lines.
Qed.

Lemma news_one_line_per_article_witness :
  get_financial_news w_online (Some "Apple")
  = Ok (foldr String.append "" (map news_line sample_articles)
        +:+ news_footer "29.10.2025 15:00").
Proof.
  exact (news_one_line_per_article w_online (Some "Apple")
           {| status_code := 200;
              json := Ok {| articles := Some sample_articles; rates := None;
                            timestamp := None |} |}
           {| articles := Some sample_articles; rates := None; timestamp := None |}
           _ _ eq_refl eq_refl eq_refl eq_refl).
Defined.

(** ** Declared tools and the dispatch *)

(** The dispatch reads the argument object only at the parameters declared
    for the called tool: two argument objects that agree on them are
    dispatched alike (same result, same caches).  Undeclared keys are
    ignored, and so is every key for an undeclared name. *)
Theorem dispatch_reads_declared_parameters `{Runtime} (w : World) (c : caches)
    (function_name : string) (arguments arguments' : gmap string string) :
  (∀ p, p ∈ declared_parameters function_name → arguments !! p = arguments' !! p) →
  dispatch w c function_name arguments = dispatch w c function_name arguments'.
Proof.
  intros Hagree. unfold dispatch.
  repeat case_decide; subst; try reflexivity.
  - rewrite (Hagree "ticker"); [reflexivity | by apply list_elem_of_here].
  - rewrite (Hagree "ticker"); [reflexivity | by apply list_elem_of_here].
  - rewrite (Hagree "ticker"); [reflexivity | by apply list_elem_of_here].
  - rewrite (Hagree "from_currency"), (Hagree "to_currency"); [reflexivity | |].
    + apply list_elem_of_further, list_elem_of_here.
    + apply list_elem_of_here.
Qed.

Lemma dispatch_reads_declared_parameters_witness :
  dispatch w_online no_caches "get_stock_price" {["ticker" := "AAPL"; "period" := "1y"]}
  = dispatch w_online no_caches "get_stock_price" {["ticker" := "AAPL"]}.
Proof.
  apply (dispatch_reads_declared_parameters w_online no_caches "get_stock_price").
  intros p Hp. apply list_elem_of_singleton in Hp as ->. reflexivity.
Defined.

Section MemoInvariant.
Context {K V : Type} `{Countable K}.

(** A memoised call returns a stored value or a computed one. *)
Lemma cache_data_result (ttl now : nat) (f : K → outcome V) (store : gmap K (nat * V))
    (args : K) (v : V) :
  (cache_data ttl f now store args).1 = Ok v →
  (∃ t, store !! args = Some (t, v)) ∨ f args = Ok v.
Proof.
  unfold cache_data. destruct (store !! args) as [[stored_at v']|] eqn:Hl.
  - case_decide.
    + simpl. intros [= ->]. left. by exists stored_at.
    + destruct (f args) eqn:Hf; simpl; intros [= ->]. by right.
  - destruct (f args) eqn:Hf; simpl; intros [= ->]. by right.
Qed.

(** The store after a call holds what it held, or what the call computed. *)
Lemma cache_data_stored (ttl now : nat) (f : K → outcome V) (store : gmap K (nat * V))
    (args k : K) (t : nat) (v : V) :
  (cache_data ttl f now store args).2 !! k = Some (t, v) →
  store !! k = Some (t, v) ∨ f args = Ok v.
Proof.
  unfold cache_data.
  assert (Hcompute : (match f args with
                      | Ok v0 => (Ok v0, <[args := (now, v0)]> store)
                      | Raise e => (Raise e, store)
                      end).2 !! k = Some (t, v) →
                     store !! k = Some (t, v) ∨ f args = Ok v).
  { destruct (f args) as [v0|e]; simpl; [|by left].
    destruct (decide (args = k)) as [->|Hne].
    - rewrite lookup_insert_eq. intros [= _ ->]. by right.
    - rewrite lookup_insert_ne by done. by left. }
  destruct (store !! args) as [[stored_at v']|]; [|exact Hcompute].
  case_decide; [by left | exact Hcompute].
Qed.

End MemoInvariant.

Section DispatchResults.
Context `{Runtime}.

Lemma outcome_classified (P Q : string → Prop) (m : outcome string) (s : string) :
  every_result (classified P Q) m → m = Ok s → classified P Q s.
Proof. by intros Hm ->. Qed.

Lemma not_the_unknown_literal_price (s : string) :
  classified is_price_failure is_price_payload s → s ≠ "Unknown function call.".
Proof.
  intros [[Hm _]|[_ Hp]] ->; [discriminate|].
  destruct Hp as (? & ? & ? & ? & ? & ? & ? & Hp). discriminate.
Qed.

Lemma not_the_unknown_literal_history (s : string) :
  classified is_history_failure is_history_payload s → s ≠ "Unknown function call.".
Proof.
  intros [[Hm _]|[_ Hp]] ->; [discriminate|].
  destruct Hp as (? & ? & ? & _ & _ & Hp). discriminate.
Qed.

Lemma not_the_unknown_literal_news (s : string) :
  classified is_news_failure is_news_payload s → s ≠ "Unknown function call.".
Proof.
  intros [[Hm _]|[_ Hp]] ->; [discriminate|].
  destruct Hp as [[? Hp]|(? & ? & ? & Hp)]; discriminate.
Qed.

Lemma not_the_unknown_literal_fx (s : string) :
  classified is_fx_failure is_fx_payload s → s ≠ "Unknown function call.".
Proof.
  intros [[Hm _]|[_ Hp]] ->; [discriminate|].
  destruct Hp as (? & ? & ? & ? & Hp). discriminate.
Qed.

Lemma news_cached_classified (w : World) (c : caches) (q : pyarg) (s : string) :
  caches_classified c →
  (get_financial_news_cached w c q).1 = Ok s →
  classified is_news_failure is_news_payload s.
Proof.
  intros [Hnews _]. unfold get_financial_news_cached.
  destruct (cache_data _ _ _ _ _) as [r store] eqn:Hc. simpl. intros ->.
  assert (Hr : (cache_data 120 (get_financial_news w) (clock w) (news_cache c) q).1 = Ok s)
    by (by rewrite Hc).
  apply cache_data_result in Hr as [[t Hr]|Hr]; [by eapply Hnews|].
  eapply outcome_classified; [apply get_financial_news_classified | exact Hr].
Qed.

Lemma fx_cached_classified (w : World) (c : caches) (a b : pyarg) (s : string) :
  caches_classified c →
  (get_exchange_rate_cached w c a b).1 = Ok s →
  classified is_fx_failure is_fx_payload s.
Proof.
  intros [_ Hfx]. rewrite fx_cached_fst. intros Hr.
  apply cache_data_result in Hr as [[t Hr]|Hr]; [by eapply Hfx|].
  eapply outcome_classified; [apply get_exchange_rate_classified | exact Hr].
Qed.

Lemma news_cached_keeps_classified (w : World) (c : caches) (q : pyarg) :
  caches_classified c → caches_classified (get_financial_news_cached w c q).2.
Proof.
  intros [Hnews Hfx]. unfold get_financial_news_cached.
  destruct (cache_data _ _ _ _ _) as [r store] eqn:Hc. simpl. split; simpl; [|exact Hfx].
  intros k t s Hk.
  assert (Hs : (cache_data 120 (get_financial_news w) (clock w) (news_cache c) q).2 !! k
               = Some (t, s)) by (by rewrite Hc).
  apply cache_data_stored in Hs as [Hs|Hs]; [by eapply Hnews|].
  eapply outcome_classified; [apply get_financial_news_classified | exact Hs].
Qed.

Lemma fx_cached_keeps_classified (w : World) (c : caches) (a b : pyarg) :
  caches_classified c → caches_classified (get_exchange_rate_cached w c a b).2.
Proof.
  intros [Hnews Hfx]. split.
  - unfold get_exchange_rate_cached. by destruct (cache_data _ _ _ _ _).
  - intros k t s Hk. rewrite fx_cached_store in Hk.
    apply cache_data_stored in Hk as [Hk|Hk]; [by eapply Hfx|].
    eapply outcome_classified; [apply get_exchange_rate_classified | exact Hk].
Qed.

End DispatchResults.

(** The names the dispatch knows are the declared ones, and the literal
    ["Unknown function call."] tells them apart: with caches that hold
    strings of the operations, the dispatch hands back the literal exactly
    for a name that is not declared, since no client operation ever returns
    it. *)
Theorem unknown_literal_iff_undeclared `{Runtime} (w : World) (c : caches)
    (function_name : string) (arguments : gmap string string) :
  caches_classified c →
  ((dispatch w c function_name arguments).1 = Ok "Unknown function call."
   ↔ function_name ∉ map t_name functions).
Proof.
  intros Hc. unfold dispatch. split.
  - repeat case_decide; subst; simpl; intros Hr.
    + exfalso. eapply not_the_unknown_literal_price; [|reflexivity].
      eapply outcome_classified; [apply get_stock_price_classified | exact Hr].
    + exfalso. eapply not_the_unknown_literal_history; [|reflexivity].
      eapply outcome_classified; [apply get_stock_history_classified | exact Hr].
    + exfalso. eapply not_the_unknown_literal_news; [|reflexivity].
      by eapply news_cached_classified.
    + exfalso. eapply not_the_unknown_literal_fx; [|reflexivity].
      by eapply fx_cached_classified.
    + intros Hin. simpl in Hin.
      repeat (apply elem_of_cons in Hin as [Hin|Hin]; [done|]).
      by apply elem_of_nil in Hin.
  - intros Hnot.
    repeat case_decide; subst; try reflexivity; exfalso; apply Hnot; simpl; set_solver.
Qed.

Lemma unknown_literal_iff_undeclared_witness :
  (dispatch w_online no_caches "get_weather" ∅).1 = Ok "Unknown function call."
  ↔ "get_weather" ∉ map t_name functions.
Proof.
  apply (unknown_literal_iff_undeclared w_online no_caches "get_weather" ∅).
  split; intros k t s Hk; simpl in Hk; by rewrite lookup_empty in Hk.
Defined.

(** The dispatch keeps the caches to strings of the operations, and what it
    hands back is then a failure message with the marker, a payload without
    it, or the unknown-function literal: the memo does not blur the marker. *)
Theorem dispatch_keeps_caches_classified `{Runtime} (w : World) (c : caches)
    (function_name : string) (arguments : gmap string string) :
  caches_classified c →
  caches_classified (dispatch w c function_name arguments).2
  ∧ every_result
      (λ s, s = "Unknown function call."
            ∨ classified is_price_failure is_price_payload s
            ∨ classified is_history_failure is_history_payload s
            ∨ classified is_news_failure is_news_payload s
            ∨ classified is_fx_failure is_fx_payload s)
      (dispatch w c function_name arguments).1.
Proof.
  intros Hc. unfold dispatch. repeat case_decide; subst; simpl.
  - split; [exact Hc|].
    pose proof (get_stock_price_classified w (arguments !! "ticker")) as Hp.
    destruct (get_stock_price _ _); simpl in *; auto.
  - split; [exact Hc|].
    pose proof (get_stock_history_classified w (arguments !! "ticker")) as Hp.
    destruct (get_stock_history _ _); simpl in *; auto.
  - split; [by apply news_cached_keeps_classified|].
    destruct (get_financial_news_cached _ _ _).1 as [s|e] eqn:Hr; simpl; [|exact I].
    do 3 right. left. by eapply news_cached_classified.
  - split; [by apply fx_cached_keeps_classified|].
    destruct (get_exchange_rate_cached _ _ _ _).1 as [s|e] eqn:Hr; simpl; [|exact I].
    do 4 right. by eapply fx_cached_classified.
  - split; [exact Hc | by left].
Qed.

Lemma dispatch_keeps_caches_classified_witness :
  caches_classified
    (dispatch w_online no_caches "get_exchange_rate"
       {["from_currency" := "eur"; "to_currency" := "usd"]}).2.
Proof.
  apply (dispatch_keeps_caches_classified w_online no_caches "get_exchange_rate").
  split; intros k t s Hk; simpl in Hk; by rewrite lookup_empty in Hk.
Defined.

(** ** Widgets after a tool call *)

Section ToolWidgets.
Context `{Runtime}.

Lemma plot_stock_history_cases (host : Host) (w : World) (q : pyarg) :
  plot_stock_history host w q
  = match yf_history w (find_ticker w q) with
    | Raise _ => [Error "Error while creating the chart."]
    | Ok [] => [Warning "No price data available."]
    | Ok hist =>
        match draw_chart host (chart_title (find_ticker w q)) hist with
        | Ok _ =>
            [Pyplot (chart_title (find_ticker w q)) (map (λ r, (q_date r, Close r)) hist)
               "Price in USD"]
        | Raise _ => [Error "Error while creating the chart."]
        end
    end.
Proof.
  unfold plot_stock_history.
  destruct (yf_history w (find_ticker w q)) as [[|row hist]|e]; simpl; try reflexivity.
  by destruct (draw_chart host _ _).
Qed.

Lemma fx_error_occurs (status : Z) : occurs_in "Error" (fx_error status) = true.
Proof. reflexivity. Qed.

(** The message reads "could not be found": the test for "not found" misses
    it. *)
Lemma pair_not_found_passes_the_test :
  occurs_in "Error" pair_not_found || occurs_in "not found" pair_not_found = false.
Proof. reflexivity. Qed.

Lemma news_failure_occurs (s : string) : is_news_failure s → occurs_in "Error" s = true.
Proof. intros [status ->]. reflexivity. Qed.

End ToolWidgets.

(** After a history lookup that returned, the widget step draws the chart
    only on success.  The lookup is answered by [w]; the widget step fetches
    the history anew, and is answered by [w_chart].  For the empty-history
    message the step shows that message as a warning and fetches nothing.
    Otherwise the text was made from a non-empty history, it bears no
    failure mark, and the step rests on the second fetch alone: the chart
    error when that fetch raises, the warning that no price data is
    available when it has no row, and else the chart of all its rows under
    the title of the ticker found, or the chart error when drawing raises. *)
Theorem chart_only_after_history_payload `{Runtime} (host : Host) (w w_chart : World)
    (arguments : gmap string string) (function_response : string) :
  get_stock_history w (arguments !! "ticker") = Ok function_response →
  (function_response = "❌ No stock data available for this company."
   ∧ yf_history w (find_ticker w (arguments !! "ticker")) = Ok []
   ∧ tool_widgets host w_chart "get_stock_history" function_response arguments
     = [Warning "❌ No stock data available for this company."])
  ∨ (failure_marked function_response = false
     ∧ (∃ hist, yf_history w (find_ticker w (arguments !! "ticker")) = Ok hist ∧ hist ≠ [])
     ∧ tool_widgets host w_chart "get_stock_history" function_response arguments
       = match yf_history w_chart (find_ticker w_chart (arguments !! "ticker")) with
         | Raise _ => [Error "Error while creating the chart."]
         | Ok [] => [Warning "No price data available."]
         | Ok hist =>
             match
               draw_chart host
                 (py_str (find_ticker w_chart (arguments !! "ticker"))
                  +:+ " – Closing Price (last 7 days)") hist
             with
             | Ok _ =>
                 [Pyplot
                    (py_str (find_ticker w_chart (arguments !! "ticker"))
                     +:+ " – Closing Price (last 7 days)")
                    (map (λ r, (q_date r, Close r)) hist) "Price in USD"]
             | Raise _ => [Error "Error while creating the chart."]
             end
         end).
Proof.
  intros Hr. unfold tool_widgets. rewrite decide_True by reflexivity.
  unfold get_stock_history, short_name in Hr.
  destruct (yf_history w (find_ticker w (arguments !! "ticker"))) as [hist|e] eqn:Hh;
    simpl in Hr; [|discriminate].
  destruct hist as [|row hist].
  - injection Hr as <-. left. by split.
  - destruct (yf_info w _) as [info|e]; simpl in Hr; [|discriminate].
    injection Hr as <-. right.
    split; [reflexivity|]. split; [exists (row :: hist); by split|].
    change (failure_marked _) with false. cbn [negb].
    apply plot_stock_history_cases.
Qed.

Lemma chart_only_after_history_payload_witness :
  tool_widgets (host_calling "get_stock_history" {["ticker" := "Apple"]}) w_online
    "get_stock_history"
    (history_header "Apple Inc." "AAPL"
     +:+ String.concat nl (map history_line (reverse aapl_week)))
    {["ticker" := "Apple"]}
  = [Pyplot "AAPL – Closing Price (last 7 days)"
       (map (λ r, (q_date r, Close r)) aapl_week) "Price in USD"].
Proof.
  assert (Hr : get_stock_history w_online
                 (({["ticker" := "Apple"]} : gmap string string) !! "ticker")
               = Ok (history_header "Apple Inc." "AAPL"
                     +:+ String.concat nl (map history_line (reverse aapl_week))))
    by (vm_compute; reflexivity).
  destruct (chart_only_after_history_payload
              (host_calling "get_stock_history" {["ticker" := "Apple"]}) w_online w_online
              {["ticker" := "Apple"]} _ Hr) as [[Hm _]|(_ & _ & Hw)].
  - discriminate Hm.
  - exact Hw.
Defined.

(** A history that was there for the text and has no row at the second
    fetch: the widget step shows the warning of the chart function. *)
Example chart_refetch_without_rows :
  get_stock_history w_online (Some "Apple")
  = Ok (history_header "Apple Inc." "AAPL"
        +:+ String.concat nl (map history_line (reverse aapl_week)))
  ∧ tool_widgets (host_calling "get_stock_history" {["ticker" := "Apple"]}) w_no_prices
      "get_stock_history"
      (history_header "Apple Inc." "AAPL"
       +:+ String.concat nl (map history_line (reverse aapl_week)))
      {["ticker" := "Apple"]}
    = [Warning "No price data available."].
Proof. split; [vm_compute; reflexivity | reflexivity]. Qed.

(** What the widget step shows for a failure-marked result.  Those of the
    history and of the news are shown as a warning.  Of the two failure
    messages of the exchange rate only the status error is shown as an
    error; the pair-not-found message reads "could not be found", passes
    the test for "not found" and draws nothing.  A result of the price
    lookup draws no widget, failure or not. *)
Theorem failure_widgets `{Runtime} (host : Host) (w : World)
    (q a b : pyarg) (arguments : gmap string string) :
  every_result
    (λ s, failure_marked s = true →
          tool_widgets host w "get_stock_history" s arguments = [Warning s])
    (get_stock_history w q)
  ∧ every_result
      (λ s, failure_marked s = true →
            tool_widgets host w "get_financial_news" s arguments = [Warning s])
      (get_financial_news w q)
  ∧ every_result
      (λ s, failure_marked s = true →
            (s = pair_not_found
             ∧ tool_widgets host w "get_exchange_rate" s arguments = [])
            ∨ (∃ status, s = fx_error status
                         ∧ tool_widgets host w "get_exchange_rate" s arguments = [Error s]))
      (get_exchange_rate w a b)
  ∧ ∀ s, tool_widgets host w "get_stock_price" s arguments = [].
Proof.
  split; [|split; [|split]].
  - destruct (get_stock_history w q) as [s|e]; simpl; [|exact I].
    intros Hm. unfold tool_widgets. rewrite decide_True by reflexivity. by rewrite Hm.
  - pose proof (get_financial_news_classified w q) as Hc.
    destruct (get_financial_news w q) as [s|e]; simpl in *; [|exact I].
    intros Hm. destruct Hc as [[_ Hf]|[Hp _]]; [|congruence].
    unfold tool_widgets. rewrite decide_False by discriminate.
    rewrite decide_False by discriminate. rewrite decide_True by reflexivity.
    by rewrite (news_failure_occurs s Hf).
  - pose proof (get_exchange_rate_classified w a b) as Hc.
    destruct (get_exchange_rate w a b) as [s|e]; simpl in *; [|exact I].
    intros Hm. destruct Hc as [[_ Hf]|[Hp _]]; [|congruence].
    unfold tool_widgets. rewrite decide_False by discriminate.
    rewrite decide_False by discriminate. rewrite decide_False by discriminate.
    rewrite decide_True by reflexivity.
    destruct Hf as [->|[status ->]].
    + left. split; [reflexivity|]. by rewrite pair_not_found_passes_the_test.
    + right. exists status. split; [reflexivity|]. by rewrite fx_error_occurs.
  - intros s. unfold tool_widgets. rewrite decide_False by discriminate.
    by rewrite decide_True.
Qed.

(** ** One turn and the transcript *)


(** An exception of the history tool stops the whole run, one of the price
    tool does not.  When the model asks for a tool on a ticker whose price
    fetch raises: with [get_stock_history] the turn ends in that exception,
    the transcript keeps the question without any reply and the run draws
    neither a widget of the turn nor the chat display; with
    [get_stock_price] the error message becomes the tool result and the
    turn completes with the model's second answer. *)
Theorem history_exception_stops_the_run `{Runtime} (host : Host) (w w_chart : World)
    (c : caches)
    (messages : list message) (user_input : string) (answer : option string)
    (call : function_call) (arguments : gmap string string) (e : string) :
  user_input ≠ "" →
  complete_with_functions host (messages ++ [user_message user_input]) functions
  = Ok {| cm_content := answer; cm_function_call := Some call |} →
  json_loads host (fc_arguments call) = Ok arguments →
  yf_history w (find_ticker w (arguments !! "ticker")) = Raise e →
  (fc_name call = "get_stock_history" →
   script_run host w w_chart c (Some messages) user_input
   = {| r_messages := messages ++ [user_message user_input]; r_caches := c;
        r_widgets := header ++ download_button messages; r_exception := Some e |})
  ∧ (fc_name call = "get_stock_price" →
     ∀ final,
       complete host
         (messages ++ [user_message user_input]
          ++ [function_message "get_stock_price" (stock_data_error e)])
       = Ok final →
       script_run host w w_chart c (Some messages) user_input
       = {| r_messages :=
              messages ++ [user_message user_input]
              ++ [function_message "get_stock_price" (stock_data_error e)]
              ++ [assistant_message final];
            r_caches := c;
            r_widgets :=
              header ++ download_button messages ++ [Success final]
              ++ display_history
                   (messages ++ [user_message user_input]
                    ++ [function_message "get_stock_price" (stock_data_error e)]
                    ++ [assistant_message final]);
            r_exception := None |}).
Proof.
  intros Hinput Hfirst Hjson Hfetch.
  unfold script_run. rewrite decide_False by done. cbn [session_messages].
  unfold chat_turn. rewrite Hfirst. cbn [cm_function_call]. rewrite Hjson.
  split.
  - intros Hname. rewrite Hname. unfold dispatch.
    rewrite decide_False by discriminate. rewrite decide_True by reflexivity.
    unfold get_stock_history. rewrite Hfetch. cbn. by rewrite app_nil_r.
  - intros Hname final Hsecond. rewrite Hname. unfold dispatch.
    rewrite decide_True by reflexivity.
    unfold get_stock_price. rewrite Hfetch. cbn [and_then try_except].
    rewrite <- !app_assoc in *. rewrite Hsecond. cbn [r_exception r_messages r_caches r_widgets].
    unfold tool_widgets. rewrite decide_False by discriminate.
    rewrite decide_True by reflexivity. rewrite <- !app_assoc. reflexivity.
Qed.

Lemma history_exception_stops_the_run_witness :
  script_run (host_calling "get_stock_history" {["ticker" := "AAPL"]}) w_offline w_online
    no_caches (Some [system_message]) "Show me the price history for Apple."
  = {| r_messages := [system_message; user_message "Show me the price history for Apple."];
       r_caches := no_caches;
       r_widgets := header;
       r_exception := Some "Connection refused" |}.
Proof.
  assert (Hinput : "Show me the price history for Apple." ≠ "") by discriminate.
  exact (proj1 (history_exception_stops_the_run
                  (host_calling "get_stock_history" {["ticker" := "AAPL"]}) w_offline
                  w_online no_caches [system_message]
                  "Show me the price history for Apple." None
                  {| fc_name := "get_stock_history"; fc_arguments := "{...}" |}
                  {["ticker" := "AAPL"]} "Connection refused"
                  Hinput eq_refl eq_refl eq_refl) eq_refl).
Defined.

(** ** The transcript over a session *)

Section Session.
Context `{Runtime}.

Lemma chat_turn_grows (host : Host) (w w_chart : World) (c : caches)
    (messages : list message)
    (user_input : string) :
  ∃ appended,
    r_messages (chat_turn host w w_chart c messages user_input) = messages ++ appended
    ∧ Forall turn_message appended.
Proof.
  assert (Hu : turn_message (user_message user_input)).
  { split; [discriminate|]. split; [discriminate | by intros [? [=]]]. }
  assert (Ha : ∀ final, turn_message (assistant_message final)).
  { intros final. split; [discriminate|]. split; [discriminate | by intros [? [=]]]. }
  assert (Hf : ∀ name response, turn_message (function_message name response)).
  { intros name response. split; [discriminate|]. split; [by eexists | done]. }
  unfold chat_turn.
  destruct (complete_with_functions host _ _) as [[answer [call|]]|e]; simpl.
  - destruct (json_loads host _) as [arguments|e]; simpl.
    + destruct (dispatch w c (fc_name call) arguments) as [[response|e] c']; simpl.
      * destruct (complete host _) as [final|e]; simpl.
        -- eexists. rewrite <- !app_assoc. split; [reflexivity|].
           repeat (apply Forall_cons_2; [by auto|]); apply Forall_nil_2.
        -- eexists. rewrite <- !app_assoc. split; [reflexivity|].
           repeat (apply Forall_cons_2; [by auto|]); apply Forall_nil_2.
      * eexists. split; [reflexivity|]. repeat (apply Forall_cons_2; [by auto|]); apply Forall_nil_2.
    + eexists. split; [reflexivity|]. repeat (apply Forall_cons_2; [by auto|]); apply Forall_nil_2.
  - eexists. rewrite <- !app_assoc. split; [reflexivity|]. repeat (apply Forall_cons_2; [by auto|]); apply Forall_nil_2.
  - eexists. split; [reflexivity|]. repeat (apply Forall_cons_2; [by auto|]); apply Forall_nil_2.
Qed.

Lemma script_run_grows (host : Host) (w w_chart : World) (c : caches)
    (stored : option (list message)) (user_input : string) :
  ∃ appended,
    r_messages (script_run host w w_chart c stored user_input) = session_messages stored ++ appended
    ∧ Forall turn_message appended.
Proof.
  unfold script_run. case_decide.
  - exists []. split; [by rewrite app_nil_r | constructor].
  - destruct (chat_turn_grows host w w_chart c (session_messages stored) user_input)
      as (appended & Hm & Hok).
    exists appended. by destruct (r_exception _).
Qed.

Lemma script_run_transcript_ok (host : Host) (w w_chart : World) (c : caches)
    (stored : option (list message)) (user_input : string) :
  transcript_ok (session_messages stored) →
  transcript_ok (r_messages (script_run host w w_chart c stored user_input)).
Proof.
  intros (turns & Hm & Hok).
  destruct (script_run_grows host w w_chart c stored user_input) as (appended & -> & Happ).
  exists (turns ++ appended). rewrite Hm. split; [reflexivity | by apply Forall_app].
Qed.

Lemma session_after_ok (steps : list interaction) (stored : option (list message))
    (c : caches) :
  transcript_ok (session_messages stored) →
  transcript_ok (session_messages (session_after steps stored c).1).
Proof.
  revert stored c. induction steps as [|step steps IH]; intros stored c Hok; [exact Hok|].
  cbn [session_after]. apply IH. cbn [session_messages].
  by apply script_run_transcript_ok.
Qed.

Lemma session_after_grows (steps : list interaction) (stored : option (list message))
    (c : caches) :
  session_messages stored `prefix_of` session_messages (session_after steps stored c).1.
Proof.
  revert stored c. induction steps as [|step steps IH]; intros stored c; [done|].
  cbn [session_after]. etrans; [|apply IH]. cbn [session_messages].
  destruct (script_run_grows (i_host step) (i_world step) (i_chart_world step) c stored (i_input step))
    as (appended & -> & _).
  by apply prefix_app_r.
Qed.

End Session.

(** Over a whole session, started with no stored state and whatever the
    hosts, worlds and inputs of its runs, completed or stopped by an
    exception: the transcript begins with the system prompt, holds no other
    system message, has a name on exactly its function messages, and only
    ever grows, so that once the download button is offered (more than 2
    messages) every later run offers it too. *)
Theorem session_transcript_invariant `{Runtime} (steps more : list interaction) :
  transcript_ok (session_messages (session_after steps None no_caches).1)
  ∧ session_messages (session_after steps None no_caches).1
    `prefix_of`
    session_messages
      (session_after more (session_after steps None no_caches).1
         (session_after steps None no_caches).2).1
  ∧ (download_button (session_messages (session_after steps None no_caches).1) ≠ [] →
     download_button
       (session_messages
          (session_after more (session_after steps None no_caches).1
             (session_after steps None no_caches).2).1)
     ≠ []).
Proof.
  split; [|split].
  - apply session_after_ok. exists []. split; [reflexivity | constructor].
  - apply session_after_grows.
  - pose proof (session_after_grows more (session_after steps None no_caches).1
                  (session_after steps None no_caches).2) as Hgrow.
    apply prefix_length in Hgrow. unfold download_button.
    repeat case_decide; try done; lia.
Qed.

(** ** The chat display and the download *)

Lemma display_history_app `{Runtime} (messages : list message) (shown : list widget) :
  fold_left (λ shown message, shown ++ display_message message) messages shown
  = shown ++ display_history messages.
Proof.
  unfold display_history. revert shown.
  induction messages as [|m messages IH]; intros shown; cbn [fold_left].
  - by rewrite app_nil_r.
  - rewrite IH, (IH ([] ++ display_message m)). by rewrite app_assoc.
Qed.

Lemma display_history_cons `{Runtime} (m : message) (messages : list message) :
  display_history (m :: messages) = display_message m ++ display_history messages.
Proof.
  unfold display_history at 1. cbn [fold_left]. by rewrite display_history_app.
Qed.

Lemma display_message_box `{Runtime} (m : message) :
  in_download m = true → ∃ box, display_message m = [box].
Proof.
  unfold in_download, display_message.
  destruct (msg_role m); intros Hd; try discriminate; by eexists.
Qed.

Lemma display_message_none `{Runtime} (m : message) :
  in_download m = false → display_message m = [] ∧ transcript_line m = "".
Proof.
  unfold in_download, display_message, transcript_line.
  by destruct (msg_role m).
Qed.

(** The chat display and the download show the same messages: the boxes of
    the display and the lines of the download correspond one to one, in
    order, each pair made from one user or assistant message; system and
    function messages have neither a box nor a line. *)
Theorem display_matches_download `{Runtime} (messages : list message) :
  Forall2 (λ box line, ∃ m, m ∈ messages ∧ in_download m = true
                            ∧ display_message m = [box] ∧ transcript_line m = line)
    (display_history messages) (transcript_lines messages)
  ∧ ∀ m, in_download m = false → display_message m = [] ∧ transcript_line m = "".
Proof.
  split; [|apply display_message_none].
  induction messages as [|m messages IH]; [constructor|].
  rewrite display_history_cons. unfold transcript_lines in *. cbn [List.filter].
  assert (Hmono : Forall2
            (λ box line, ∃ m0, m0 ∈ m :: messages ∧ in_download m0 = true
                               ∧ display_message m0 = [box] ∧ transcript_line m0 = line)
            (display_history messages)
            (map transcript_line (List.filter in_download messages))).
  { eapply Forall2_impl; [exact IH|].
    intros box line (m0 & Hin & Hd & Hb & Hl). exists m0.
    split; [by apply list_elem_of_further | done]. }
  destruct (in_download m) eqn:Hd.
  - destruct (display_message_box m Hd) as [box Hbox]. rewrite Hbox. cbn [app map].
    constructor; [|exact Hmono]. exists m.
    split; [apply list_elem_of_here | done].
  - destruct (display_message_none m Hd) as [-> _]. exact Hmono.
Qed.

(** The download button of a run carries the transcript as it stood when the
    run began, before its turn: whatever the run appends is not in the file
    it offers, and a run that begins with at most 2 messages offers none. *)
Theorem download_is_of_the_stored_transcript `{Runtime} (host : Host) (w w_chart : World)
    (c : caches) (stored : option (list message)) (user_input : string)
    (label data file_name : string) :
  DownloadButton label data file_name ∈ r_widgets (script_run host w w_chart c stored user_input) →
  data = download_chat_history (session_messages stored)
  ∧ (2 < length (session_messages stored))%nat.
Proof.
  assert (Hdisplay : ∀ messages, DownloadButton label data file_name ∉ display_history messages).
  { intros messages. unfold display_history.
    assert (Hgen : ∀ shown, DownloadButton label data file_name ∉ shown →
              DownloadButton label data file_name
              ∉ fold_left (λ shown message, shown ++ display_message message) messages shown).
    { induction messages as [|m messages IH]; intros shown Hs; [exact Hs|].
      cbn [fold_left]. apply IH. rewrite elem_of_app. intros [Hin|Hin]; [done|].
      unfold display_message in Hin.
      destruct (msg_role m);
        repeat (apply elem_of_cons in Hin as [Hin|Hin]; [discriminate|]);
        by apply elem_of_nil in Hin. }
    apply Hgen. apply not_elem_of_nil. }
  assert (Hplot : ∀ q, DownloadButton label data file_name
                       ∉ plot_stock_history host w_chart q).
  { intros q Hin. unfold plot_stock_history in Hin.
    destruct (yf_history w_chart (find_ticker w_chart q)) as [[|row hist]|e]; simpl in Hin.
    - apply elem_of_cons in Hin as [Hin|Hin]; [discriminate | by apply elem_of_nil in Hin].
    - destruct (draw_chart host _ _); simpl in Hin;
        (apply elem_of_cons in Hin as [Hin|Hin];
         [discriminate | by apply elem_of_nil in Hin]).
    - apply elem_of_cons in Hin as [Hin|Hin]; [discriminate | by apply elem_of_nil in Hin]. }
  assert (Htool : ∀ name response arguments,
            DownloadButton label data file_name
            ∉ tool_widgets host w_chart name response arguments).
  { intros name response arguments Hin. unfold tool_widgets in Hin.
    repeat case_decide.
    - destruct (negb _); [by eapply Hplot|].
      apply elem_of_cons in Hin as [Hin|Hin]; [discriminate | by apply elem_of_nil in Hin].
    - by apply elem_of_nil in Hin.
    - destruct (_ || _); [|by apply elem_of_nil in Hin].
      apply elem_of_cons in Hin as [Hin|Hin]; [discriminate | by apply elem_of_nil in Hin].
    - destruct (_ || _); [|by apply elem_of_nil in Hin].
      apply elem_of_cons in Hin as [Hin|Hin]; [discriminate | by apply elem_of_nil in Hin].
    - by apply elem_of_nil in Hin. }
  assert (Hturn : DownloadButton label data file_name
                  ∉ r_widgets (chat_turn host w w_chart c (session_messages stored) user_input)).
  { unfold chat_turn.
    destruct (complete_with_functions host _ _) as [[answer [call|]]|e]; simpl.
    - destruct (json_loads host _) as [arguments|e]; simpl; [|apply not_elem_of_nil].
      destruct (dispatch w c (fc_name call) arguments) as [[response|e] c']; simpl;
        [|apply not_elem_of_nil].
      destruct (complete host _) as [final|e]; simpl; [|apply not_elem_of_nil].
      rewrite elem_of_app. intros [Hin|Hin]; [by eapply Htool|].
      apply elem_of_cons in Hin as [Hin|Hin]; [discriminate | by apply elem_of_nil in Hin].
    - intros Hin.
      apply elem_of_cons in Hin as [Hin|Hin]; [discriminate | by apply elem_of_nil in Hin].
    - apply not_elem_of_nil. }
  assert (Htop : DownloadButton label data file_name
                 ∈ header ++ download_button (session_messages stored) →
                 data = download_chat_history (session_messages stored)
                 ∧ (2 < length (session_messages stored))%nat).
  { rewrite elem_of_app. intros [Hin|Hin].
    - unfold header in Hin.
      repeat (apply elem_of_cons in Hin as [Hin|Hin]; [discriminate|]).
      by apply elem_of_nil in Hin.
    - unfold download_button in Hin. case_decide; [|by apply elem_of_nil in Hin].
      apply elem_of_cons in Hin as [Hin|Hin]; [|by apply elem_of_nil in Hin].
      by injection Hin as _ -> _. }
  unfold script_run. cbv zeta. case_decide.
  - cbn [r_widgets]. rewrite elem_of_app.
    intros [Hin|Hin]; [by apply Htop | by apply Hdisplay in Hin].
  - destruct (r_exception _); cbn [r_widgets]; rewrite !elem_of_app.
    + intros [Hin|Hin]; [apply Htop; by rewrite elem_of_app | done].
    + intros [Hin|[Hin|Hin]];
        [apply Htop; by rewrite elem_of_app | done | by apply Hdisplay in Hin].
Qed.

Lemma download_is_of_the_stored_transcript_witness :
  "User: Hello" +:+ nl +:+ "Assistant: Hi" +:+ nl
  = download_chat_history
      (session_messages
         (Some [system_message; user_message "Hello"; assistant_message (Some "Hi")])).
Proof.
  refine (proj1 (download_is_of_the_stored_transcript (host_answering "Hi") w_online
                   w_online no_caches
                   (Some [system_message; user_message "Hello";
                          assistant_message (Some "Hi")])
                   "" "💾 Download chat history"
                   ("User: Hello" +:+ nl +:+ "Assistant: Hi" +:+ nl)
                   "financechat_history.txt" _)).
  do 5 apply list_elem_of_further. apply list_elem_of_here.
Defined.

(** ** The price lookup never raises *)

(** For every world and every query, [None] included, the price lookup
    returns a string; and whichever step raises after the ticker search (the
    fetch of the history, the conversion of the volume, the company
    metadata), the string is the error message with that exception's text
    and the support number. *)
Theorem get_stock_price_always_returns `{Runtime} (w : World) (q : pyarg) :
  ∃ s, get_stock_price w q = Ok s
       ∧ (∀ e, yf_history w (find_ticker w q) = Raise e → s = stock_data_error e)
       ∧ (∀ hist last_quote e,
            yf_history w (find_ticker w q) = Ok hist → last hist = Some last_quote →
            num_int (Volume last_quote) = Raise e → s = stock_data_error e)
       ∧ (∀ hist last_quote volume e,
            yf_history w (find_ticker w q) = Ok hist → last hist = Some last_quote →
            num_int (Volume last_quote) = Ok volume →
            yf_info w (find_ticker w q) = Raise e → s = stock_data_error e)
       ∧ (∀ e, contains e (stock_data_error e)
               ∧ contains SUPPORT_PHONE_NUMBER (stock_data_error e)
               ∧ failure_marked (stock_data_error e) = true).
Proof.
  destruct (get_stock_price_returns w q) as [s Hs]. exists s.
  split; [exact Hs|]. unfold get_stock_price, short_name in Hs.
  split; [|split; [|split]].
  - intros e He. rewrite He in Hs. simpl in Hs. by injection Hs as <-.
  - intros hist last_quote e Hh Hl Hv. rewrite Hh in Hs. simpl in Hs.
    rewrite Hl, Hv in Hs. simpl in Hs. by injection Hs as <-.
  - intros hist last_quote volume e Hh Hl Hv Hi. rewrite Hh in Hs. simpl in Hs.
    rewrite Hl, Hv in Hs. simpl in Hs. rewrite Hi in Hs. simpl in Hs.
    by injection Hs as <-.
  - intros e. unfold stock_data_error. split; [|split; [|reflexivity]].
    + apply contains_app_r, contains_here.
    + do 3 apply contains_app_r. exists "", "". by rewrite str_app_nil_r.
Qed.
